(** * Zero-click search demo: the search-term resolution pipeline

    A shallow embedding of the data pipeline of the Streamlit scripts
    [zero-click-search-demo-v2.py] and [zero-click-search-demo-v3.py]: the
    sample Dataset and its CSV persistence, the case-insensitive local
    lookup, the upload block and the Google Trends block.  Version 1 shows
    the static chart only and has no pipeline.

    A Streamlit script is run from its first line to its last on every
    user interaction; one such run is a render pass.  A pass is embedded
    as a computation that emits display events and may raise a Python
    exception.  Page decoration (titles, the static bar chart, the slider)
    does not take part in the pipeline and is left out.

    The lookup of version 2 is also given over an interface of the
    library functions it calls ([library], [V2L]), and what is proved of
    the lookup is proved for every implementation of that interface. *)

From Stdlib Require Import ZArith List String Ascii Bool Arith Lia.
From Stdlib Require Import DecimalString Sorted.
Import ListNotations.
Local Open Scope string_scope.
Local Open Scope list_scope.

(** ** Python values *)

Module Py.

(** The exception classes the pipeline can meet.  All of them derive from
    [Exception] but [KeyboardInterrupt], which derives from
    [BaseException] only. *)
Inductive exn_class :=
| FileNotFoundError | EmptyDataError | ParserError
| KeyError | AttributeError | TypeError | ValueError
| ConnectionError | ResponseError | KeyboardInterrupt.

(** An exception object: its class and [str(e)]. *)
Record exn := mk_exn { class_of : exn_class; str : string }.

(** [except Exception] *)
Definition is_Exception (e : exn) : bool :=
  match class_of e with KeyboardInterrupt => false | _ => true end.

(** [except FileNotFoundError] *)
Definition is_FileNotFoundError (e : exn) : bool :=
  match class_of e with FileNotFoundError => true | _ => false end.

Inductive result (A : Type) :=
| Ok (a : A)
| Raise (e : exn).
Arguments Ok {A} a.
Arguments Raise {A} e.

(** [str.lower()], on ASCII text: the letters A-Z are mapped to a-z and
    every other character is kept.  Letters outside ASCII are kept as
    well, which Python does not do; what the lookup does on such text is
    stated for every [str.lower()], see [library]. *)
Definition is_upper (c : ascii) : bool :=
  (65 <=? nat_of_ascii c)%nat && (nat_of_ascii c <=? 90)%nat.

Definition lower_ascii (c : ascii) : ascii :=
  if is_upper c then ascii_of_nat (nat_of_ascii c + 32) else c.

Fixpoint lower (s : string) : string :=
  match s with
  | EmptyString => EmptyString
  | String c s' => String (lower_ascii c) (lower s')
  end.

(** Truth value of a [str]: the empty string is false. *)
Definition truthy (s : string) : bool :=
  match s with EmptyString => false | _ => true end.

(** Two characters are the same letter when they are equal or one is the
    lower-case form of the other, an upper-case letter. *)
Definition same_letter (a b : ascii) : Prop :=
  a = b \/ (is_upper a = true /\ b = lower_ascii a)
        \/ (is_upper b = true /\ a = lower_ascii b).

(** Strings that differ at most in the case of their letters. *)
Inductive differ_only_in_case : string -> string -> Prop :=
| doic_nil : differ_only_in_case EmptyString EmptyString
| doic_cons a b s t :
    same_letter a b -> differ_only_in_case s t ->
    differ_only_in_case (String a s) (String b t).

(** [repr(s)] of a [str], as it appears in the text of a [KeyError] and
    in the [str] of a list: single quotes, or double quotes when the text
    holds a single quote and no double quote; the quote in use, the
    backslash and control characters are escaped.  Characters outside
    ASCII are kept as they are. *)
Definition SQ : ascii := "'"%char.
Definition DQ : ascii := "034"%char.
Definition BACKSLASH : ascii := "\"%char.

Fixpoint has_char (c : ascii) (s : string) : bool :=
  match s with
  | EmptyString => false
  | String c' s' => Ascii.eqb c c' || has_char c s'
  end.

Definition hex (n : nat) : ascii :=
  nth n (list_ascii_of_string "0123456789abcdef") "0"%char.

Definition escape (quote c : ascii) : string :=
  let n := nat_of_ascii c in
  if Ascii.eqb c BACKSLASH then String BACKSLASH (String BACKSLASH EmptyString)
  else if Ascii.eqb c quote then String BACKSLASH (String c EmptyString)
  else if Nat.eqb n 10 then String BACKSLASH "n"
  else if Nat.eqb n 13 then String BACKSLASH "r"
  else if Nat.eqb n 9 then String BACKSLASH "t"
  else if (n <? 32)%nat || Nat.eqb n 127
       then String BACKSLASH
              (String "x"%char (String (hex (n / 16)) (String (hex (n mod 16)) EmptyString)))
  else String c EmptyString.

Fixpoint escape_all (quote : ascii) (s : string) : string :=
  match s with
  | EmptyString => EmptyString
  | String c s' => escape quote c ++ escape_all quote s'
  end.

Definition repr (s : string) : string :=
  let quote := if has_char SQ s && negb (has_char DQ s) then DQ else SQ in
  String quote (escape_all quote s ++ String quote EmptyString).

(** [str(l)] of a list of strings. *)
Definition list_repr (l : list string) : string :=
  "[" ++ String.concat ", " (map repr l) ++ "]".

End Py.
Import Py.

(** ** The part of pandas the scripts use *)

Module Pandas.

(** A cell holds a [str], an [int64] or a missing value (NaN).  Floating
    point cells are not modelled. *)
Inductive cell :=
| CStr (s : string)
| CInt (z : Z)
| CNaN.

Definition cell_eqb (a b : cell) : bool :=
  match a, b with
  | CStr s, CStr t => String.eqb s t
  | CInt x, CInt y => Z.eqb x y
  | CNaN, CNaN => true
  | _, _ => false
  end.

(** A DataFrame with the default index: column labels and rows. *)
Record DataFrame := mkDF { columns : list string; rows : list (list cell) }.

Fixpoint index_of (c : string) (cols : list string) : option nat :=
  match cols with
  | [] => None
  | c' :: cols' =>
      if String.eqb c c' then Some O
      else option_map S (index_of c cols')
  end.

(** [c in df.columns] *)
Definition has_column (df : DataFrame) (c : string) : bool :=
  match index_of c (columns df) with Some _ => true | None => false end.

(** The value of a row in a column, NaN where the row is short. *)
Definition at_column (df : DataFrame) (c : string) (r : list cell) : cell :=
  match index_of c (columns df) with
  | Some i => nth i r CNaN
  | None => CNaN
  end.

(** [df[c]]: the column as a Series, [KeyError] when there is none; the
    text of the exception is the [repr] of the label. *)
Definition getitem (df : DataFrame) (c : string) : result (list cell) :=
  match index_of c (columns df) with
  | Some i => Ok (map (fun r => nth i r CNaN) (rows df))
  | None => Raise (mk_exn KeyError (repr c))
  end.

Definition is_str (c : cell) : bool :=
  match c with CStr _ => true | _ => false end.

(** A Series has dtype [object] when it holds a string or is empty; a
    Series of numbers has a numeric dtype. *)
Definition is_object (s : list cell) : bool :=
  match s with [] => true | _ => existsb is_str s end.

(** [s.str.lower()]: only for dtype [object]; entries that are not
    strings become NaN. *)
Definition str_lower (s : list cell) : result (list cell) :=
  if is_object s then
    Ok (map (fun c => match c with CStr t => CStr (lower t) | _ => CNaN end) s)
  else Raise (mk_exn AttributeError "Can only use .str accessor with string values!").

(** [s == t] for a string [t]: an elementwise mask. *)
Definition eq_str (s : list cell) (t : string) : list bool :=
  map (fun c => match c with CStr u => String.eqb u t | _ => false end) s.

Fixpoint select_rows (rs : list (list cell)) (mask : list bool) : list (list cell) :=
  match rs, mask with
  | r :: rs', b :: mask' =>
      if b then r :: select_rows rs' mask' else select_rows rs' mask'
  | _, _ => []
  end.

(** [df[mask]]: the rows where the mask holds, in the order of [df]. *)
Definition select (df : DataFrame) (mask : list bool) : DataFrame :=
  mkDF (columns df) (select_rows (rows df) mask).

(** [df.empty]: no column or no row. *)
Definition empty (df : DataFrame) : bool :=
  match columns df, rows df with
  | [], _ => true
  | _, [] => true
  | _, _ => false
  end.

(** [s.unique().tolist()]: first occurrences, in order. *)
Fixpoint unique_from (seen : list cell) (s : list cell) : list cell :=
  match s with
  | [] => []
  | c :: s' =>
      if existsb (cell_eqb c) seen then unique_from seen s'
      else c :: unique_from (c :: seen) s'
  end.

Definition unique (s : list cell) : list cell := unique_from [] s.

(** [pd.DataFrame(d)] for a dict of equally long lists, in insertion
    order; [ValueError] when the lengths differ. *)
Definition dict := list (string * list cell).

Definition same_lengths (d : dict) : bool :=
  match d with
  | [] => true
  | (_, c) :: d' => forallb (fun kv => Nat.eqb (List.length (snd kv)) (List.length c)) d'
  end.

Definition nrows (d : dict) : nat :=
  match d with [] => O | (_, c) :: _ => List.length c end.

Definition DataFrame_of_dict (d : dict) : result DataFrame :=
  if same_lengths d then
    Ok (mkDF (map fst d)
             (map (fun i => map (fun kv => nth i (snd kv) CNaN) d)
                  (seq 0 (nrows d))))
  else Raise (mk_exn ValueError "All arrays must be of the same length").

End Pandas.
Import Pandas.

(** ** CSV persistence: [DataFrame.to_csv] and [pd.read_csv]

    Both are library code.  They are modelled with their default options,
    as the scripts call them.  Left out: floating point and boolean
    columns and integers outside [int64] (their tokens are kept as text),
    the decoding of the bytes of the file (no decoding error is raised),
    renaming of empty or repeated header names, and the reading of a first
    record longer than the header as carrying an index (it is an error
    here).  None of these occurs in the sample data.  What a pass does
    with other files is stated for every reader, see [library]. *)

Module Csv.

Definition LF : ascii := "010"%char.
Definition CR : ascii := "013"%char.
Definition TAB : ascii := "009"%char.
Definition DQUOTE : ascii := "034"%char.
Definition COMMA : ascii := ","%char.
Definition SPACE : ascii := " "%char.

Definition newline : string := String LF EmptyString.

(** *** Writing *)

Fixpoint string_exists (p : ascii -> bool) (s : string) : bool :=
  match s with
  | EmptyString => false
  | String c s' => p c || string_exists p s'
  end.

Definition special (c : ascii) : bool :=
  Ascii.eqb c COMMA || Ascii.eqb c DQUOTE || Ascii.eqb c LF || Ascii.eqb c CR.

Fixpoint double_quotes (s : string) : string :=
  match s with
  | EmptyString => EmptyString
  | String c s' =>
      if Ascii.eqb c DQUOTE then String DQUOTE (String DQUOTE (double_quotes s'))
      else String c (double_quotes s')
  end.

(** Minimal quoting: a field is quoted only when it holds a delimiter, a
    quote or a line break. *)
Definition csv_field (s : string) : string :=
  if string_exists special s
  then String DQUOTE (double_quotes s ++ String DQUOTE EmptyString)
  else s.

Definition int_text (z : Z) : string := NilZero.string_of_int (Z.to_int z).

(** Missing values are written as the empty field. *)
Definition cell_text (c : cell) : string :=
  match c with
  | CStr s => s
  | CInt z => int_text z
  | CNaN => EmptyString
  end.

Definition csv_line (fields : list string) : string :=
  String.concat "," (map csv_field fields) ++ newline.

(** [df.to_csv(path, index=False)]: the text written to the file. *)
Definition to_csv (df : DataFrame) : string :=
  csv_line (columns df)
  ++ String.concat "" (map (fun r => csv_line (map cell_text r)) (rows df)).

(** *** Reading: the tokenizer *)

Inductive tstate :=
| START_RECORD | WHITESPACE_LINE | START_FIELD | IN_FIELD
| IN_QUOTED_FIELD | QUOTE_IN_QUOTED_FIELD | EAT_CRNL | EAT_CRNL_NOP.

(** The tokenizer state: the characters of the field being read and the
    fields of the record being read, both latest first, and the finished
    records, latest first. *)
Record tok := mkTok {
  state : tstate;
  field : list ascii;
  fields : list string;
  records : list (list string) }.

Definition set_state (s : tstate) (t : tok) : tok :=
  mkTok s (field t) (fields t) (records t).

Definition push (c : ascii) (t : tok) : tok :=
  mkTok (state t) (c :: field t) (fields t) (records t).

Definition end_field (t : tok) : tok :=
  mkTok (state t) [] (string_of_list_ascii (rev (field t)) :: fields t) (records t).

Definition end_line (t : tok) : tok :=
  mkTok (state t) [] [] (rev (fields t) :: records t).

Definition drop_field (t : tok) : tok :=
  mkTok (state t) [] (fields t) (records t).

Definition is_blank (c : ascii) : bool := Ascii.eqb c SPACE || Ascii.eqb c TAB.

Definition on_field (c : ascii) (t : tok) : tok :=
  if Ascii.eqb c LF then set_state START_RECORD (end_line (end_field t))
  else if Ascii.eqb c CR then set_state EAT_CRNL (end_field t)
  else if Ascii.eqb c COMMA then set_state START_FIELD (end_field t)
  else set_state IN_FIELD (push c t).

Definition on_start_field (c : ascii) (t : tok) : tok :=
  if Ascii.eqb c DQUOTE then set_state IN_QUOTED_FIELD t
  else on_field c t.

(** Blank lines, and lines of blanks only, are skipped. *)
Definition on_start_record (c : ascii) (t : tok) : tok :=
  if Ascii.eqb c LF then t
  else if Ascii.eqb c CR then set_state EAT_CRNL_NOP t
  else if is_blank c then set_state WHITESPACE_LINE (push c t)
  else on_start_field c t.

Definition step (t : tok) (c : ascii) : tok :=
  match state t with
  | START_RECORD => on_start_record c t
  | WHITESPACE_LINE =>
      if Ascii.eqb c LF then set_state START_RECORD (drop_field t)
      else if Ascii.eqb c CR then set_state EAT_CRNL_NOP (drop_field t)
      else if is_blank c then push c t
      else on_field c t
  | START_FIELD => on_start_field c t
  | IN_FIELD => on_field c t
  | IN_QUOTED_FIELD =>
      if Ascii.eqb c DQUOTE then set_state QUOTE_IN_QUOTED_FIELD t
      else push c t
  | QUOTE_IN_QUOTED_FIELD =>
      if Ascii.eqb c DQUOTE then set_state IN_QUOTED_FIELD (push c t)
      else on_field c t
  | EAT_CRNL =>
      if Ascii.eqb c LF then set_state START_RECORD (end_line t)
      else if Ascii.eqb c COMMA then set_state START_FIELD (end_field (end_line t))
      else on_start_record c (set_state START_RECORD (end_line t))
  | EAT_CRNL_NOP =>
      if Ascii.eqb c LF || Ascii.eqb c COMMA then set_state START_RECORD t
      else on_start_record c (set_state START_RECORD t)
  end.

(** End of input: an open quoted field is an error, an open record is
    closed. *)
Definition at_eof (t : tok) : result (list (list string)) :=
  match state t with
  | START_RECORD | WHITESPACE_LINE | EAT_CRNL_NOP => Ok (rev (records t))
  | IN_QUOTED_FIELD => Raise (mk_exn ParserError "Error tokenizing data. C error: EOF inside string")
  | START_FIELD | IN_FIELD | QUOTE_IN_QUOTED_FIELD =>
      Ok (rev (records (end_line (end_field t))))
  | EAT_CRNL => Ok (rev (records (end_line t)))
  end.

Definition tokenize (s : string) : result (list (list string)) :=
  at_eof (fold_left step (list_ascii_of_string s) (mkTok START_RECORD [] [] [])).

(** *** Reading: missing values and integers *)

Definition na_values : list string :=
  [ ""; "#N/A"; "#N/A N/A"; "#NA"; "-1.#IND"; "-1.#QNAN"; "-NaN"; "-nan";
    "1.#IND"; "1.#QNAN"; "<NA>"; "N/A"; "NA"; "NULL"; "NaN"; "None";
    "n/a"; "nan"; "null" ].

Definition is_na (s : string) : bool := existsb (String.eqb s) na_values.

Definition is_digit (c : ascii) : bool :=
  (48 <=? nat_of_ascii c)%nat && (nat_of_ascii c <=? 57)%nat.

Definition is_space (c : ascii) : bool :=
  Ascii.eqb c SPACE || ((9 <=? nat_of_ascii c)%nat && (nat_of_ascii c <=? 13)%nat).

Fixpoint skip_spaces (s : string) : string :=
  match s with
  | String c s' => if is_space c then skip_spaces s' else s
  | EmptyString => EmptyString
  end.

(** Digits, then spaces up to the end. *)
Fixpoint digits (s : string) (acc : Z) : option Z :=
  match s with
  | EmptyString => Some acc
  | String c s' =>
      if is_digit c then digits s' (10 * acc + Z.of_nat (nat_of_ascii c - 48))%Z
      else match skip_spaces s with EmptyString => Some acc | _ => None end
  end.

Definition starts_with_digit (s : string) : bool :=
  match s with String c _ => is_digit c | EmptyString => false end.

Definition unsigned (s : string) : option Z :=
  if starts_with_digit s then digits s 0%Z else None.

Definition in_int64 (z : Z) : bool :=
  ((- 2 ^ 63 <=? z) && (z <? 2 ^ 63))%Z.

(** A token read as an [int64]: spaces, an optional sign, digits,
    spaces. *)
Definition parse_int (s : string) : option Z :=
  let z :=
    match skip_spaces s with
    | String "-"%char s' => option_map Z.opp (unsigned s')
    | String "+"%char s' => unsigned s'
    | s' => unsigned s'
    end in
  match z with
  | Some v => if in_int64 v then Some v else None
  | None => None
  end.

(** *** Reading: the table *)

Definition token_at (j : nat) (r : list string) : string := nth j r EmptyString.

(** A column is numeric when each of its tokens is missing or an
    integer. *)
Definition numeric (rs : list (list string)) (j : nat) : bool :=
  forallb (fun r => let t := token_at j r in
                    is_na t || match parse_int t with Some _ => true | None => false end) rs.

Definition read_cell (num : bool) (t : string) : cell :=
  if is_na t then CNaN
  else if num then match parse_int t with Some z => CInt z | None => CNaN end
  else CStr t.

Definition too_long (n : nat) (rs : list (list string)) : bool :=
  existsb (fun r => (n <? List.length r)%nat) rs.

(** [pd.read_csv(text)]: the first record is the header; a record shorter
    than the header is filled with NaN. *)
Definition read_csv (text : string) : result DataFrame :=
  match tokenize text with
  | Raise e => Raise e
  | Ok [] => Raise (mk_exn EmptyDataError "No columns to parse from file")
  | Ok (header :: rs) =>
      let n := List.length header in
      if too_long n rs
      then Raise (mk_exn ParserError "Error tokenizing data. C error: too many fields in a line")
      else
        let kinds := map (numeric rs) (seq 0 n) in
        Ok (mkDF header
              (map (fun r => map (fun j => read_cell (nth j kinds false) (token_at j r))
                               (seq 0 n)) rs))
  end.

End Csv.
Import Csv.

(** ** Streamlit: display events and the render monad *)

Module St.

(** A plotly line figure: its data frame, the columns on the two axes and
    the title.  The points are drawn in the order of the rows. *)
Record figure := mkFig {
  data : DataFrame; x_axis : string; y_axis : string; title : string }.

(** What a pass shows.  The two impact events stand for the [st.write] of
    the estimated zero-click impact: the number in the text is
    [int(mean(0.4 * v))] in floating point and is not computed here, the
    event carries the term and the values [v] it is computed from. *)
Inductive event :=
| st_write (text : string)
| st_info (text : string)
| st_success (text : string)
| st_warning (text : string)
| st_error (text : string)
| st_plotly_chart (fig : figure)
| st_write_volume_impact (term : string) (volumes : list Z)
| st_write_interest_impact (term : string) (interest : list Z).

(** A computation shows events and then returns or raises; what was shown
    before an exception stays on the page. *)
Definition M (A : Type) : Type := (list event * result A)%type.

Definition ret {A} (a : A) : M A := ([], Ok a).

Definition bind {A B} (m : M A) (k : A -> M B) : M B :=
  match m with
  | (shown, Ok a) => let (shown', r) := k a in (shown ++ shown', r)
  | (shown, Raise e) => (shown, Raise e)
  end.

Definition emit (ev : event) : M unit := ([ev], Ok tt).

(** A library call, which shows nothing. *)
Definition call {A} (r : result A) : M A := ([], r).

(** [try: body except <class> as e: handler(e)] *)
Definition try_except {A} (body : M A) (catches : exn -> bool) (handler : exn -> M A) : M A :=
  match body with
  | (shown, Raise e) =>
      if catches e then let (shown', r) := handler e in (shown ++ shown', r)
      else (shown, Raise e)
  | done => done
  end.

Definition shown {A} (m : M A) : list event := fst m.
Definition outcome {A} (m : M A) : result A := snd m.

(** The text of the [ValueError] of plotly express for an argument that is
    not a column of the frame. *)
Definition px_error (field : string) (df : DataFrame) (argument : string) : string :=
  "Value of '" ++ field ++ "' is not the name of a column in 'data_frame'. Expected one of "
  ++ list_repr (columns df) ++ " but received: " ++ argument
  ++ (if String.eqb argument "index"
      then newline ++ " To use the index, pass it in directly as `df.index`."
      else EmptyString).

(** [px.line(df, x=..., y=..., title=...)]: both columns must exist; [x]
    is looked at first. *)
Definition px_line (df : DataFrame) (x y title : string) : result figure :=
  if negb (has_column df x) then Raise (mk_exn ValueError (px_error "x" df x))
  else if negb (has_column df y) then Raise (mk_exn ValueError (px_error "y" df y))
  else Ok (mkFig df x y title).

(** The numbers a mean is taken of: arithmetic on a string raises
    [TypeError], NaN entries are skipped, and [int] of the mean of no
    number at all (NaN) raises [ValueError]. *)
Fixpoint ints (s : list cell) : list Z :=
  match s with
  | [] => []
  | CInt z :: s' => z :: ints s'
  | _ :: s' => ints s'
  end.

Definition mean_operands (s : list cell) : result (list Z) :=
  if existsb is_str s then Raise (mk_exn TypeError "unsupported operand type(s)")
  else match ints s with
       | [] => Raise (mk_exn ValueError "cannot convert float NaN to integer")
       | vs => Ok vs
       end.

End St.
Import St.

Declare Scope render_scope.
Delimit Scope render_scope with render.
Notation "x <- m ;; k" := (bind m (fun x => k))
  (at level 61, m at next level, right associativity) : render_scope.
Notation "m ;;; k" := (bind m (fun _ => k))
  (at level 61, right associativity) : render_scope.
Local Open Scope render_scope.

(** ** The persistence file

    The file [search_volume_data.csv]: its text, or [None] when there is no
    such file. *)
Definition file := option string.

(** [pd.read_csv(path)] *)
Definition read_csv_file (f : file) : result DataFrame :=
  match f with
  | None => Raise (mk_exn FileNotFoundError "[Errno 2] No such file or directory: 'search_volume_data.csv'")
  | Some text => read_csv text
  end.

Definition required_columns : list string := ["Search Term"; "Month"; "Search Volume"].

(** ** Version 2 *)

Module V2.

(** Lines 45-49. *)
Definition sample_data : dict :=
  [ ("Search Term",
     map CStr ["best laptops"; "best laptops"; "best laptops";
               "python tutorial"; "python tutorial"; "python tutorial";
               "cheap flights"; "cheap flights"; "cheap flights"]);
    ("Month",
     map CStr ["2025-01"; "2025-02"; "2025-03"; "2025-01"; "2025-02"; "2025-03";
               "2025-01"; "2025-02"; "2025-03"]);
    ("Search Volume",
     map CInt [120000; 130000; 125000; 80000; 85000; 90000;
               200000; 210000; 190000]%Z) ].

(** Lines 50-60: the sample frame is written to the persistence file and
    read back; only a missing file is handled.  The write is taken to
    succeed.  [interference] is what the rest of the system does to the
    file between the write and the read; it is the identity when nothing
    else touches the file. *)
Definition load_dataset (interference : file -> file) : M DataFrame :=
  df_search <- call (DataFrame_of_dict sample_data) ;;
  let on_disk : file := interference (Some (to_csv df_search)) in
  try_except (call (read_csv_file on_disk))
    is_FileNotFoundError
    (fun _ =>
       emit (st_error "Search volume dataset not found. Using sample data.") ;;;
       call (DataFrame_of_dict sample_data)).

(** Lines 71-72: a custom term replaces the selected one. *)
Definition term_to_use (selected_term custom_term : string) : string :=
  if truthy custom_term then custom_term else selected_term.

(** Lines 75-96: the local lookup and its display. *)
Definition visualize (df_search : DataFrame) (selected_term : string) : M unit :=
  if truthy selected_term then
    terms <- call (getitem df_search "Search Term") ;;
    lowered <- call (str_lower terms) ;;
    let filtered_df := select df_search (eq_str lowered (lower selected_term)) in
    if negb (empty filtered_df) then
      fig_search <- call (px_line filtered_df "Month" "Search Volume"
                            ("Monthly Search Volume for '" ++ selected_term ++ "'")) ;;
      emit (st_plotly_chart fig_search) ;;;
      volumes <- call (getitem filtered_df "Search Volume") ;;
      operands <- call (mean_operands volumes) ;;
      emit (st_write_volume_impact selected_term operands)
    else
      emit (st_warning ("No data found for '" ++ selected_term
                        ++ "'. Please select another term or ensure data is available."))
  else
    emit (st_info "Select or enter a search term to view its monthly search volume trends.").

(** The script variables the pipeline assigns. *)
Record globals := mkGlobals { df_search : DataFrame; search_terms : list cell }.

(** Lines 122-127: the column check on the uploaded table. *)
Definition accept_upload (g : globals) (df_uploaded : DataFrame) : M globals :=
  if forallb (has_column df_uploaded) required_columns then
    emit (st_success "Dataset uploaded successfully! Select a search term to visualize.") ;;;
    terms <- call (getitem df_uploaded "Search Term") ;;
    ret (mkGlobals df_uploaded (unique terms))
  else
    emit (st_error "Uploaded CSV must contain 'Search Term', 'Month', and 'Search Volume' columns.") ;;;
    ret g.

(** Lines 119-127. *)
Definition upload (g : globals) (uploaded_file : option string) : M globals :=
  match uploaded_file with
  | Some text =>
      df_uploaded <- call (read_csv text) ;;
      accept_upload g df_uploaded
  | None => ret g
  end.

(** The widget values of one pass. *)
Record inputs := mkInputs {
  interference : file -> file;
  selected_term : string;
  custom_term : string;
  uploaded_file : option string }.

(** Lines 45-96: the Dataset is built and the term is looked up in it. *)
Definition resolve (interference : file -> file) (selected_term custom_term : string)
  : M globals :=
  df <- load_dataset interference ;;
  terms <- call (getitem df "Search Term") ;;
  let g := mkGlobals df (unique terms) in
  visualize (df_search g) (term_to_use selected_term custom_term) ;;;
  ret g.

(** One render pass: lines 45-127 in order.  The pass reads no script
    variable before it assigns it, so it does not depend on what an
    earlier pass left. *)
Definition render (i : inputs) : M globals :=
  g <- resolve (interference i) (selected_term i) (custom_term i) ;;
  upload g (uploaded_file i).

(** A session: one render pass per interaction, in order; what each pass
    showed and how it ended. *)
Definition session (passes : list inputs) : list (M globals) := map render passes.

End V2.

(** ** Version 3

    The file of version 3 does not compile: line 147 opens a string
    literal and does not close it.  The definitions up to [render] follow
    the lines of the file as they are written; [run], at the end of the
    module, is what a run of the file does. *)

Module V3.

(** Lines 53-57. *)
Definition sample_data : dict :=
  [ ("Search Term",
     map CStr ["best laptops"; "best laptops"; "best laptops";
               "python tutorial"; "python tutorial"; "python tutorial"]);
    ("Month",
     map CStr ["2025-01"; "2025-02"; "2025-03"; "2025-01"; "2025-02"; "2025-03"]);
    ("Search Volume",
     map CInt [120000; 130000; 125000; 80000; 85000; 90000]%Z) ].

(** *** The trends service *)

(** A calendar date of the time index. *)
Record date := mkDate { year : nat; month : nat; day : nat }.

(** The frame [interest_over_time] answers with: a date index and
    columns of values. *)
Record trends_frame := mkTrends {
  dates : list date;
  t_columns : list string;
  t_rows : list (list cell) }.

(** The remote service as the script meets it: the constructor
    [TrendReq(hl='en-US', tz=360)], [build_payload] and
    [interest_over_time] for a keyword, each of which returns or
    raises. *)
Record trends_service := mkService {
  TrendReq : result unit;
  build_payload : string -> result unit;
  interest_over_time : string -> result trends_frame }.

(** Lines 11-15: the result tells whether [pytrends] is a client
    ([true]) or [None] ([false]). *)
Definition init_pytrends (svc : trends_service) : M bool :=
  try_except (_ <- call (TrendReq svc) ;; ret true)
    is_Exception
    (fun e =>
       emit (st_error ("Error initializing Google Trends: " ++ str e)) ;;;
       ret false).

Definition two_digits (n : nat) : string :=
  let s := NilZero.string_of_uint (Nat.to_uint n) in
  if (n <? 10)%nat then "0" ++ s else s.

Definition four_digits (n : nat) : string :=
  let s := NilZero.string_of_uint (Nat.to_uint n) in
  if (n <? 10)%nat then "000" ++ s
  else if (n <? 100)%nat then "00" ++ s
  else if (n <? 1000)%nat then "0" ++ s
  else s.

(** [strftime("%Y-%m")] *)
Definition strftime_Y_m (d : date) : string :=
  four_digits (year d) ++ "-" ++ two_digits (month d).

Definition count_column (c : string) (cols : list string) : nat :=
  List.length (filter (String.eqb c) cols).

Definition t_empty (t : trends_frame) : bool :=
  match t_columns t, t_rows t with
  | [], _ => true
  | _, [] => true
  | _, _ => false
  end.

(** Lines 86-89: the column of the term with the index as a column, the
    two renamed, the dates formatted and the term added.  Renaming to
    two labels raises [ValueError] when the label of the term selected
    more than one column. *)
Definition trends_table (trends_data : trends_frame) (selected_term : string)
  : result DataFrame :=
  match index_of selected_term (t_columns trends_data) with
  | None => Raise (mk_exn KeyError (repr selected_term))
  | Some j =>
      if Nat.eqb (count_column selected_term (t_columns trends_data)) 1 then
        Ok (mkDF ["Month"; "Search Interest"; "Search Term"]
              (map (fun dr => [CStr (strftime_Y_m (fst dr)); nth j (snd dr) CNaN;
                               CStr selected_term])
                   (combine (dates trends_data) (t_rows trends_data))))
      else Raise (mk_exn ValueError "Length mismatch: Expected axis has more elements")
  end.

(** Lines 85-108: what is shown for the answer of the service. *)
Definition show_trends (trends_data : trends_frame) (selected_term : string) : M unit :=
  if existsb (String.eqb selected_term) (t_columns trends_data)
     && negb (t_empty trends_data) then
    trends_df <- call (trends_table trends_data selected_term) ;;
    fig_trends <- call (px_line trends_df "Month" "Search Interest"
                          ("Google Trends Interest for '" ++ selected_term
                           ++ "' (Last 3 Months)")) ;;
    emit (st_plotly_chart fig_trends) ;;;
    interest <- call (getitem trends_df "Search Interest") ;;
    operands <- call (mean_operands interest) ;;
    emit (st_write_interest_impact selected_term operands)
  else
    emit (st_warning ("No Google Trends data found for '" ++ selected_term
                      ++ "'. Try another term or check spelling.")).

(** Lines 80-112: the remote lookup; [pytrends] tells whether the client
    of lines 11-15 exists. *)
Definition fetch_trends (svc : trends_service) (pytrends : bool) (selected_term : string)
  : M unit :=
  if truthy selected_term && pytrends then
    emit (st_write ("Fetching Google Trends data for '" ++ selected_term ++ "'...")) ;;;
    try_except
      (_ <- call (build_payload svc selected_term) ;;
       trends_data <- call (interest_over_time svc selected_term) ;;
       show_trends trends_data selected_term)
      is_Exception
      (fun e => emit (st_error ("Error fetching Google Trends data: " ++ str e)))
  else if truthy selected_term then
    emit (st_error "Google Trends integration unavailable. Please check your connection or try again later.")
  else ret tt.

(** Lines 58-68: as in version 2. *)
Definition load_dataset (interference : file -> file) : M DataFrame :=
  df_search <- call (DataFrame_of_dict sample_data) ;;
  let on_disk : file := interference (Some (to_csv df_search)) in
  try_except (call (read_csv_file on_disk))
    is_FileNotFoundError
    (fun _ =>
       emit (st_error "Search volume dataset not found. Using sample data.") ;;;
       call (DataFrame_of_dict sample_data)).

(** Lines 119-138: the local lookup and its display. *)
Definition visualize_local (df_search : DataFrame) (selected_local_term : string) : M unit :=
  if truthy selected_local_term then
    terms <- call (getitem df_search "Search Term") ;;
    lowered <- call (str_lower terms) ;;
    let filtered_df := select df_search (eq_str lowered (lower selected_local_term)) in
    if negb (empty filtered_df) then
      fig_search <- call (px_line filtered_df "Month" "Search Volume"
                            ("Monthly Search Volume for '" ++ selected_local_term
                             ++ "' (Local Data)")) ;;
      emit (st_plotly_chart fig_search) ;;;
      volumes <- call (getitem filtered_df "Search Volume") ;;
      operands <- call (mean_operands volumes) ;;
      emit (st_write_volume_impact selected_local_term operands)
    else
      emit (st_warning ("No local data found for '" ++ selected_local_term
                        ++ "'. Please select another term."))
  else ret tt.

(** Lines 145-146: the column check and the assignment.  Line 147 opens
    the text of the success message and ends without closing it, so what
    is shown here is not modelled. *)
Definition accept_upload (df_search df_uploaded : DataFrame) : DataFrame :=
  if forallb (has_column df_uploaded) required_columns then df_uploaded
  else df_search.

(** Lines 143-146. *)
Definition upload (df_search : DataFrame) (uploaded_file : option string) : M DataFrame :=
  match uploaded_file with
  | Some text =>
      df_uploaded <- call (read_csv text) ;;
      ret (accept_upload df_search df_uploaded)
  | None => ret df_search
  end.

(** The widget values of one pass and the state of the service. *)
Record inputs := mkInputs {
  service : trends_service;
  interference : file -> file;
  selected_term : string;
  selected_local_term : string;
  uploaded_file : option string }.

(** The two lookups of a pass, lines 80-138: the remote one for the
    typed term, then the local one for the term of the select box. *)
Definition lookups (svc : trends_service) (pytrends : bool) (df_search : DataFrame)
    (selected_term selected_local_term : string) : M unit :=
  fetch_trends svc pytrends selected_term ;;;
  _ <- call (getitem df_search "Search Term") ;;
  visualize_local df_search selected_local_term.

(** The render pass that lines 11-146 describe, in order.  The script as
    it is shipped does not get there, see [run] below. *)
Definition render (i : inputs) : M DataFrame :=
  pytrends <- init_pytrends (service i) ;;
  df_search <- load_dataset (interference i) ;;
  lookups (service i) pytrends df_search (selected_term i) (selected_local_term i) ;;;
  upload df_search (uploaded_file i).

(** *** The script as it is shipped *)

(** Line 147 of the file: after [st.success(] a string literal is opened,
    and the line ends ten bytes later without closing it. *)
Definition line_147 : string :=
  "        st.success("
  ++ String DQ
       ("Dataset"
        ++ String (ascii_of_nat 229)
             (String (ascii_of_nat 165) (String (ascii_of_nat 162) EmptyString))).

(** Whether a line leaves a string literal open at its end.  Outside a
    literal a quote opens one and [#] starts a comment; inside, a
    backslash takes the next character with it and the quote that opened
    the literal closes it. *)
Fixpoint leaves_literal_open (inside : option ascii) (s : string) : bool :=
  match s with
  | EmptyString => match inside with Some _ => true | None => false end
  | String c s' =>
      match inside with
      | None =>
          if Ascii.eqb c DQ || Ascii.eqb c SQ then leaves_literal_open (Some c) s'
          else if Ascii.eqb c "#"%char then false
          else leaves_literal_open None s'
      | Some quote =>
          if Ascii.eqb c BACKSLASH then
            match s' with
            | EmptyString => false
            | String _ s'' => leaves_literal_open inside s''
            end
          else if Ascii.eqb c quote then leaves_literal_open None s'
          else leaves_literal_open inside s'
      end
  end.

(** How a run of the script ends: Python compiles the whole file before it
    runs its first line, so a line that does not compile ends the run with
    [SyntaxError] before anything is shown. *)
Inductive run_result :=
| SyntaxError_at (line : nat)
| Ran (pass : M DataFrame).

Definition run (i : inputs) : run_result :=
  if leaves_literal_open None line_147 then SyntaxError_at 147
  else Ran (render i).

End V3.

(** ** The library behind the scripts

    The functions of Python and pandas whose results the lookup and the
    persistence depend on, as an interface: [str.lower()], which
    [Series.str.lower()] applies to each string, [DataFrame.to_csv] and
    [pd.read_csv].  The statements that are made for every library hold
    for the real one. *)
Record library := mkLibrary {
  lower_of : string -> string;
  to_csv_of : DataFrame -> string;
  read_csv_of : string -> result DataFrame }.

(** The library as it is modelled above. *)
Definition modelled : library := mkLibrary Py.lower Csv.to_csv Csv.read_csv.

(** ** Version 2 over a library

    The same lines as in [V2], with the three library functions taken from
    the interface; at [modelled] the definitions are those of [V2]. *)

Module V2L.

(** [s.str.lower()] *)
Definition str_lower (L : library) (s : list cell) : result (list cell) :=
  if is_object s then
    Ok (map (fun c => match c with CStr t => CStr (lower_of L t) | _ => CNaN end) s)
  else Raise (mk_exn AttributeError "Can only use .str accessor with string values!").

(** [pd.read_csv(path)] *)
Definition read_csv_file (L : library) (f : file) : result DataFrame :=
  match f with
  | None => Raise (mk_exn FileNotFoundError "[Errno 2] No such file or directory: 'search_volume_data.csv'")
  | Some text => read_csv_of L text
  end.

(** Lines 50-60. *)
Definition load_dataset (L : library) (interference : file -> file) : M DataFrame :=
  df_search <- call (DataFrame_of_dict V2.sample_data) ;;
  let on_disk : file := interference (Some (to_csv_of L df_search)) in
  try_except (call (read_csv_file L on_disk))
    is_FileNotFoundError
    (fun _ =>
       emit (st_error "Search volume dataset not found. Using sample data.") ;;;
       call (DataFrame_of_dict V2.sample_data)).

(** Lines 75-96. *)
Definition visualize (L : library) (df_search : DataFrame) (selected_term : string) : M unit :=
  if truthy selected_term then
    terms <- call (getitem df_search "Search Term") ;;
    lowered <- call (str_lower L terms) ;;
    let filtered_df := select df_search (eq_str lowered (lower_of L selected_term)) in
    if negb (empty filtered_df) then
      fig_search <- call (px_line filtered_df "Month" "Search Volume"
                            ("Monthly Search Volume for '" ++ selected_term ++ "'")) ;;
      emit (st_plotly_chart fig_search) ;;;
      volumes <- call (getitem filtered_df "Search Volume") ;;
      operands <- call (mean_operands volumes) ;;
      emit (st_write_volume_impact selected_term operands)
    else
      emit (st_warning ("No data found for '" ++ selected_term
                        ++ "'. Please select another term or ensure data is available."))
  else
    emit (st_info "Select or enter a search term to view its monthly search volume trends.").

(** Lines 119-127. *)
Definition upload (L : library) (g : V2.globals) (uploaded_file : option string)
  : M V2.globals :=
  match uploaded_file with
  | Some text =>
      df_uploaded <- call (read_csv_of L text) ;;
      V2.accept_upload g df_uploaded
  | None => ret g
  end.

(** Lines 45-96. *)
Definition resolve (L : library) (interference : file -> file)
    (selected_term custom_term : string) : M V2.globals :=
  df <- load_dataset L interference ;;
  terms <- call (getitem df "Search Term") ;;
  let g := V2.mkGlobals df (unique terms) in
  visualize L (V2.df_search g) (V2.term_to_use selected_term custom_term) ;;;
  ret g.

(** One render pass: lines 45-127 in order. *)
Definition render (L : library) (i : V2.inputs) : M V2.globals :=
  g <- resolve L (V2.interference i) (V2.selected_term i) (V2.custom_term i) ;;
  upload L g (V2.uploaded_file i).

End V2L.

(** ** Vocabulary of the statements *)

(** Nothing but the script touches the persistence file. *)
Definition quiet : file -> file := fun f => f.

Definition term_of (df : DataFrame) (r : list cell) : cell := at_column df "Search Term" r.
Definition period_of (df : DataFrame) (r : list cell) : cell := at_column df "Month" r.
Definition volume_of (df : DataFrame) (r : list cell) : cell := at_column df "Search Volume" r.

Definition is_int (c : cell) : bool :=
  match c with CInt _ => true | _ => false end.

(** A Dataset: a table with the three required columns whose rows are
    volume records, a term and a period that are strings and a value that
    is a number. *)
Definition is_record (df : DataFrame) (r : list cell) : bool :=
  is_str (term_of df r) && is_str (period_of df r) && is_int (volume_of df r).

Definition is_dataset (df : DataFrame) : bool :=
  forallb (has_column df) required_columns && forallb (is_record df) (rows df).

(** A term cell equals the query up to case. *)
Definition matches (query : string) (c : cell) : bool :=
  match c with
  | CStr t => String.eqb (lower t) (lower query)
  | _ => false
  end.

(** The rows of the Dataset whose term equals the query up to case, in the
    order of the Dataset. *)
Definition matching_rows (df : DataFrame) (query : string) : list (list cell) :=
  filter (fun r => matches query (term_of df r)) (rows df).

(** The numbers of the value column of some rows. *)
Definition volumes (df : DataFrame) (rs : list (list cell)) : list Z :=
  ints (map (volume_of df) rs).

(** Periods in strictly ascending order: each one is before all later
    ones, so they are sorted and pairwise distinct. *)
Definition period_lt (a b : cell) : Prop :=
  match a, b with
  | CStr s, CStr t => String.ltb s t = true
  | _, _ => False
  end.

Definition ascending_periods (df : DataFrame) (rs : list (list cell)) : Prop :=
  StronglySorted period_lt (map (period_of df) rs).

(** [needle in text] *)
Fixpoint contains (text needle : string) : bool :=
  String.prefix needle text
  || match text with
     | EmptyString => false
     | String _ text' => contains text' needle
     end.

(** The figures and the messages among the events of a pass. *)
Definition is_error (ev : event) : bool :=
  match ev with st_error _ => true | _ => false end.

Definition is_warning (ev : event) : bool :=
  match ev with st_warning _ => true | _ => false end.

Definition is_chart (ev : event) : bool :=
  match ev with st_plotly_chart _ => true | _ => false end.

(** The frame [df_search[mask]] of the scripts: the columns of the Dataset
    and its matching rows. *)
Definition filtered (df : DataFrame) (query : string) : DataFrame :=
  mkDF (columns df) (matching_rows df query).

(** The frame [pd.DataFrame(d)] of a dict of equally long columns. *)
Definition frame_of (d : dict) : DataFrame :=
  match DataFrame_of_dict d with
  | Ok df => df
  | Raise _ => mkDF [] []
  end.

(** A Dataset whose rows are not in period order. *)
Definition unsorted_dataset : DataFrame :=
  mkDF required_columns
    [ [CStr "a"; CStr "2025-02"; CInt 1];
      [CStr "a"; CStr "2025-01"; CInt 2] ].

(** A Dataset with one term in two spellings. *)
Definition mixed_case_dataset : DataFrame :=
  mkDF required_columns
    [ [CStr "Best Laptops"; CStr "2025-01"; CInt 10];
      [CStr "best laptops"; CStr "2025-02"; CInt 20] ].

(** The remote lookup for a term is cut short by the exception [e]: the
    payload cannot be built, or it is built and the query fails. *)
Definition remote_raises (svc : V3.trends_service) (term : string) (e : exn) : Prop :=
  V3.build_payload svc term = Raise e
  \/ (V3.build_payload svc term = Ok tt /\ V3.interest_over_time svc term = Raise e).

(** The remote provider fails: there is no client, or the lookup is cut
    short by an exception. *)
Definition remote_fails (svc : V3.trends_service) (pytrends : bool) (term : string) : Prop :=
  pytrends = false \/ exists e, is_Exception e = true /\ remote_raises svc term e.

(** The failures of the service for a term are exceptions in the sense of
    [except Exception]. *)
Definition fails_with_Exceptions (svc : V3.trends_service) (term : string) : Prop :=
  (forall e, V3.TrendReq svc = Raise e -> is_Exception e = true)
  /\ (forall e, V3.build_payload svc term = Raise e -> is_Exception e = true)
  /\ (forall e, V3.interest_over_time svc term = Raise e -> is_Exception e = true).

(** A service that cannot be reached, and one that answers every query
    with a frame without rows and columns. *)
Definition unreachable : V3.trends_service :=
  V3.mkService (Raise (mk_exn ConnectionError "Max retries exceeded"))
               (fun _ => Raise (mk_exn ConnectionError "Max retries exceeded"))
               (fun _ => Raise (mk_exn ConnectionError "Max retries exceeded")).

Definition rate_limited : V3.trends_service :=
  V3.mkService (Ok tt) (fun _ => Ok tt)
               (fun _ => Raise (mk_exn ResponseError "The request failed: Google returned a response with code 429")).

Definition no_data : V3.trends_service :=
  V3.mkService (Ok tt) (fun _ => Ok tt) (fun _ => Ok (V3.mkTrends [] [] [])).

(** The persistence file is truncated to no byte before it is read. *)
Definition truncated : file -> file := fun _ => Some EmptyString.

(** The persistence file is removed before it is read. *)
Definition removed : file -> file := fun _ => None.

(** Uploaded tables that lack one required column each. *)
Definition without_month : DataFrame :=
  mkDF ["Search Term"; "Search Volume"] [[CStr "foo"; CInt 5]].

Definition without_volume : DataFrame :=
  mkDF ["Search Term"; "Month"] [[CStr "foo"; CStr "2025-01"]].

(** An uploaded file with the three required columns and one record. *)
Definition uploaded_csv : string :=
  "Search Term,Month,Search Volume
foo,2025-01,5
".

Definition uploaded_frame : DataFrame :=
  mkDF required_columns [[CStr "foo"; CStr "2025-01"; CInt 5]].

Definition upload_error : string :=
  "Uploaded CSV must contain 'Search Term', 'Month', and 'Search Volume' columns.".

Definition upload_success : string :=
  "Dataset uploaded successfully! Select a search term to visualize.".

(** An uploaded table with the required columns among others, in
    another order, and one whose labels are spelled in lower case. *)
Definition wide_upload : DataFrame :=
  mkDF ["Country"; "Search Volume"; "Month"; "Clicks"; "Search Term"]
    [[CStr "US"; CInt 5; CStr "2025-01"; CInt 2; CStr "foo"]].

Definition lower_case_labels : DataFrame :=
  mkDF ["search term"; "month"; "search volume"] [[CStr "foo"; CStr "2025-01"; CInt 5]].

(** The persistence file is replaced by a file without the column of the
    terms, and by one whose terms are all numbers. *)
Definition replaced_by_other_table : file -> file :=
  fun _ => Some "Keyword,Month,Search Volume
foo,2025-01,5
".

Definition terms_only : DataFrame := mkDF ["Search Term"] [[CStr "foo"]; [CStr "bar"]].

Definition numeric_terms : DataFrame :=
  mkDF required_columns [[CInt 2024; CStr "2025-01"; CInt 5]; [CInt 2025; CStr "2025-02"; CInt 7]].

(** The script variables of version 2 after the lookup of a pass with an
    untouched persistence file. *)
Definition sample_globals : V2.globals :=
  V2.mkGlobals (frame_of V2.sample_data)
    [CStr "best laptops"; CStr "python tutorial"; CStr "cheap flights"].

(** Text that is ASCII throughout. *)
Fixpoint is_ascii (s : string) : bool :=
  match s with
  | EmptyString => true
  | String c s' => (nat_of_ascii c <? 128)%nat && is_ascii s'
  end.

(** What is known of [str.lower()] here: on ASCII text it maps the
    letters A-Z to a-z and keeps every other character. *)
Definition lower_on_ascii (L : library) : Prop :=
  forall s, is_ascii s = true -> lower_of L s = Py.lower s.

(** Two strings are equal up to case when lowercasing makes them equal:
    the comparison of line 76. *)
Definition same_up_to_case (L : library) (s t : string) : Prop :=
  lower_of L s = lower_of L t.

(** A term cell equals the query up to case. *)
Definition matches_by (L : library) (query : string) (c : cell) : bool :=
  match c with
  | CStr t => String.eqb (lower_of L t) (lower_of L query)
  | _ => false
  end.

(** The rows of a table whose term equals the query up to case, in the
    order of the table. *)
Definition matching_rows_by (L : library) (df : DataFrame) (query : string)
  : list (list cell) :=
  filter (fun r => matches_by L query (term_of df r)) (rows df).

Definition filtered_by (L : library) (df : DataFrame) (query : string) : DataFrame :=
  mkDF (columns df) (matching_rows_by L df query).

(** The terms of a table are ASCII text. *)
Definition ascii_terms (df : DataFrame) : bool :=
  forallb (fun r => match term_of df r with CStr t => is_ascii t | _ => true end) (rows df).

(** Reading what was written for a frame gives the frame. *)
Definition reads_back (L : library) (df : DataFrame) : Prop :=
  read_csv_of L (to_csv_of L df) = Ok df.


(** ** The render monad *)

Lemma bind_ret {A B} (a : A) (k : A -> M B) : bind (ret a) k = k a.
Proof. unfold bind, ret. destruct (k a); reflexivity. Qed.

Lemma bind_call_Ok {A B} (a : A) (k : A -> M B) : bind (call (Ok a)) k = k a.
Proof. unfold bind, call. destruct (k a); reflexivity. Qed.

Lemma bind_call_Raise {A B} (e : exn) (k : A -> M B) :
  bind (call (Raise e)) k = ([], Raise e).
Proof. reflexivity. Qed.

Lemma bind_emit {B} (ev : event) (k : unit -> M B) :
  bind (emit ev) k = (ev :: shown (k tt), outcome (k tt)).
Proof. unfold bind, emit, shown, outcome. destruct (k tt); reflexivity. Qed.

Lemma shown_bind_Ok {A B} (m : M A) (k : A -> M B) (a : A) :
  outcome m = Ok a -> shown (bind m k) = shown m ++ shown (k a).
Proof.
  destruct m as [l r]; simpl; intros ->. simpl. destruct (k a); reflexivity.
Qed.

Lemma outcome_bind_Ok {A B} (m : M A) (k : A -> M B) (a : A) :
  outcome m = Ok a -> outcome (bind m k) = outcome (k a).
Proof.
  destruct m as [l r]; simpl; intros ->. simpl. destruct (k a); reflexivity.
Qed.

Lemma bind_Raise {A B} (m : M A) (k : A -> M B) (e : exn) :
  outcome m = Raise e -> bind m k = (shown m, Raise e).
Proof. destruct m as [l r]; simpl; intros ->. reflexivity. Qed.

(** ** Data frames *)

Lemma getitem_at (df : DataFrame) (c : string) :
  has_column df c = true ->
  getitem df c = Ok (map (at_column df c) (rows df)).
Proof.
  unfold has_column, getitem, at_column.
  destruct (index_of c (columns df)); [reflexivity | discriminate].
Qed.

Lemma has_column_nonempty (df : DataFrame) (c : string) :
  has_column df c = true -> columns df <> [].
Proof. unfold has_column. destruct (columns df); [discriminate | congruence]. Qed.

Lemma str_lower_strings (s : list cell) :
  forallb is_str s = true ->
  str_lower s = Ok (map (fun c => match c with CStr t => CStr (lower t) | _ => CNaN end) s).
Proof.
  intros H. unfold str_lower.
  assert (is_object s = true) as ->; [| reflexivity].
  destruct s as [| c s]; [reflexivity |].
  simpl in *. apply andb_true_iff in H as [-> _]. reflexivity.
Qed.

(** The mask of the scripts selects the rows that match up to case. *)
Lemma select_rows_matching (f : list cell -> cell) (rs : list (list cell)) (query : string) :
  select_rows rs
    (eq_str (map (fun c => match c with CStr t => CStr (lower t) | _ => CNaN end) (map f rs))
            (lower query))
  = filter (fun r => matches query (f r)) rs.
Proof.
  induction rs as [| r rs IH]; [reflexivity |].
  simpl. rewrite IH. unfold matches. destruct (f r); reflexivity.
Qed.

Lemma ints_of_numbers (s : list cell) :
  forallb is_int s = true -> s <> [] -> existsb is_str s = false /\ ints s <> [].
Proof.
  intros H Hne. split.
  - induction s as [| c s IH]; [reflexivity |].
    simpl in *. apply andb_true_iff in H as [Hc Hs].
    destruct c; try discriminate. simpl.
    destruct s; [reflexivity | apply IH; [assumption | discriminate]].
  - destruct s as [| c s]; [congruence |].
    simpl in H. apply andb_true_iff in H as [Hc _].
    destruct c; discriminate.
Qed.

Lemma mean_operands_numbers (s : list cell) :
  forallb is_int s = true -> s <> [] -> mean_operands s = Ok (ints s).
Proof.
  intros H Hne. destruct (ints_of_numbers s H Hne) as [Hs Hi].
  unfold mean_operands. rewrite Hs. destruct (ints s); congruence.
Qed.

(** ** The local lookup on a Dataset *)

Section Dataset.

Variable df : DataFrame.
Hypothesis Hdf : is_dataset df = true.

Lemma is_dataset_columns :
  has_column df "Search Term" = true /\ has_column df "Month" = true
  /\ has_column df "Search Volume" = true.
Proof.
  unfold is_dataset in Hdf. apply andb_true_iff in Hdf as [H _].
  simpl in H. repeat (apply andb_true_iff in H as [? H]). auto.
Qed.

Lemma is_dataset_rows (r : list cell) :
  In r (rows df) ->
  is_str (term_of df r) = true /\ is_str (period_of df r) = true
  /\ is_int (volume_of df r) = true.
Proof.
  intros Hin. unfold is_dataset in Hdf. apply andb_true_iff in Hdf as [_ H].
  rewrite forallb_forall in H. specialize (H r Hin). unfold is_record in H.
  repeat (apply andb_true_iff in H as [H ?]). auto.
Qed.

Lemma dataset_terms_are_strings :
  forallb is_str (map (at_column df "Search Term") (rows df)) = true.
Proof.
  rewrite forallb_forall. intros c Hc.
  apply in_map_iff in Hc as [r [<- Hr]].
  apply (is_dataset_rows r Hr).
Qed.

Variable query : string.

Lemma matching_rows_in (r : list cell) :
  In r (matching_rows df query) <->
  In r (rows df) /\ matches query (term_of df r) = true.
Proof. unfold matching_rows. apply filter_In. Qed.

Lemma matching_volumes_are_numbers :
  forallb is_int (map (volume_of df) (matching_rows df query)) = true.
Proof.
  rewrite forallb_forall. intros c Hc.
  apply in_map_iff in Hc as [r [<- Hr]].
  apply matching_rows_in in Hr as [Hr _].
  apply (is_dataset_rows r Hr).
Qed.

Lemma select_filtered :
  select df
    (eq_str (map (fun c => match c with CStr t => CStr (lower t) | _ => CNaN end)
                 (map (at_column df "Search Term") (rows df)))
            (lower query))
  = filtered df query.
Proof.
  unfold select, filtered, matching_rows, term_of.
  now rewrite select_rows_matching.
Qed.

Lemma empty_filtered :
  empty (filtered df query) = match matching_rows df query with [] => true | _ => false end.
Proof.
  destruct is_dataset_columns as [H _].
  apply has_column_nonempty in H. unfold empty, filtered; simpl.
  destruct (columns df); [congruence | reflexivity].
Qed.

Lemma px_line_filtered (title : string) :
  px_line (filtered df query) "Month" "Search Volume" title
  = Ok (mkFig (filtered df query) "Month" "Search Volume" title).
Proof.
  destruct is_dataset_columns as (_ & Hm & Hv). unfold px_line.
  replace (has_column (filtered df query) "Month") with true by (symmetry; exact Hm).
  replace (has_column (filtered df query) "Search Volume") with true
    by (symmetry; exact Hv).
  reflexivity.
Qed.

Lemma getitem_filtered_volumes :
  getitem (filtered df query) "Search Volume"
  = Ok (map (volume_of df) (matching_rows df query)).
Proof.
  destruct is_dataset_columns as (_ & _ & Hv).
  rewrite getitem_at; [reflexivity | exact Hv].
Qed.

(** The steps shared by the local lookups of the two versions: the mask
    and the test of line 78, then the chart and the impact line. *)
Ltac local_lookup :=
  rewrite (getitem_at _ _ (proj1 is_dataset_columns)), bind_call_Ok;
  rewrite (str_lower_strings _ dataset_terms_are_strings), bind_call_Ok;
  rewrite select_filtered, empty_filtered.

Ltac local_chart Hne :=
  rewrite px_line_filtered, bind_call_Ok, bind_emit;
  rewrite getitem_filtered_volumes, bind_call_Ok;
  rewrite (mean_operands_numbers _ matching_volumes_are_numbers), bind_call_Ok;
  [reflexivity | intros Hnil; apply map_eq_nil in Hnil; exact (Hne Hnil)].

Hypothesis Hquery : truthy query = true.

Lemma V2_visualize_found :
  matching_rows df query <> [] ->
  V2.visualize df query =
    ([st_plotly_chart (mkFig (filtered df query) "Month" "Search Volume"
                         ("Monthly Search Volume for '" ++ query ++ "'"));
      st_write_volume_impact query (volumes df (matching_rows df query))], Ok tt).
Proof.
  intros Hne. unfold V2.visualize. rewrite Hquery. local_lookup.
  destruct (matching_rows df query) as [| r rs] eqn:E; [congruence |].
  rewrite <- E in *. simpl negb. cbv iota. local_chart Hne.
Qed.

Lemma V2_visualize_not_found :
  matching_rows df query = [] ->
  V2.visualize df query =
    ([st_warning ("No data found for '" ++ query
                  ++ "'. Please select another term or ensure data is available.")], Ok tt).
Proof.
  intros Hnil. unfold V2.visualize. rewrite Hquery. local_lookup.
  rewrite Hnil. reflexivity.
Qed.

Lemma V3_visualize_local_found :
  matching_rows df query <> [] ->
  V3.visualize_local df query =
    ([st_plotly_chart (mkFig (filtered df query) "Month" "Search Volume"
                         ("Monthly Search Volume for '" ++ query ++ "' (Local Data)"));
      st_write_volume_impact query (volumes df (matching_rows df query))], Ok tt).
Proof.
  intros Hne. unfold V3.visualize_local. rewrite Hquery. local_lookup.
  destruct (matching_rows df query) as [| r rs] eqn:E; [congruence |].
  rewrite <- E in *. simpl negb. cbv iota. local_chart Hne.
Qed.

Lemma V3_visualize_local_not_found :
  matching_rows df query = [] ->
  V3.visualize_local df query =
    ([st_warning ("No local data found for '" ++ query
                  ++ "'. Please select another term.")], Ok tt).
Proof.
  intros Hnil. unfold V3.visualize_local. rewrite Hquery. local_lookup.
  rewrite Hnil. reflexivity.
Qed.

End Dataset.

(** ** Case-insensitive matching *)




Lemma matches_spec (query : string) (c : cell) :
  matches query c = true <-> exists t, c = CStr t /\ lower t = lower query.
Proof.
  unfold matches. split.
  - destruct c as [t | |]; try discriminate.
    intros H. exists t. split; [reflexivity | now apply String.eqb_eq].
  - intros [t [-> H]]. now apply String.eqb_eq.
Qed.

Lemma matching_rows_lower (df : DataFrame) (q q' : string) :
  lower q = lower q' -> matching_rows df q = matching_rows df q'.
Proof.
  intros H. unfold matching_rows. apply filter_ext. intros r.
  unfold matches. now rewrite H.
Qed.

Lemma matching_rows_nonempty (df : DataFrame) (query : string) :
  (exists r, In r (rows df) /\ matches query (term_of df r) = true) ->
  matching_rows df query <> [].
Proof.
  intros [r Hr] Hnil. apply matching_rows_in in Hr. rewrite Hnil in Hr. exact Hr.
Qed.

Lemma matching_rows_none (df : DataFrame) (query : string) :
  (forall r, In r (rows df) -> matches query (term_of df r) = false) ->
  matching_rows df query = [].
Proof.
  intros H. destruct (matching_rows df query) as [| r rs] eqn:E; [reflexivity |].
  assert (Hin : In r (matching_rows df query)) by (rewrite E; now left).
  apply matching_rows_in in Hin as [Hin Hm]. rewrite (H r Hin) in Hm. discriminate.
Qed.

Lemma sample_matching_rows (d : dict) (query : string) (r : list cell) (t : string) :
  In r (rows (frame_of d)) -> matches query (term_of (frame_of d) r) = true ->
  term_of (frame_of d) r = CStr t -> lower t = t ->
  matching_rows (frame_of d) query = matching_rows (frame_of d) t.
Proof.
  intros _ Hm Ht Hl. apply matching_rows_lower.
  apply matches_spec in Hm as [t' [Ht' Hq]].
  rewrite Ht in Ht'. injection Ht' as <-. congruence.
Qed.

Ltac sorted_periods :=
  unfold ascending_periods; vm_compute;
  repeat (constructor; try reflexivity).

Lemma V2_sample_ascending (query : string) (r : list cell) :
  In r (rows (frame_of V2.sample_data)) ->
  matches query (term_of (frame_of V2.sample_data) r) = true ->
  ascending_periods (frame_of V2.sample_data) (matching_rows (frame_of V2.sample_data) query).
Proof.
  intros Hin Hm.
  assert (H : exists t, term_of (frame_of V2.sample_data) r = CStr t /\ lower t = t
                        /\ In t ["best laptops"; "python tutorial"; "cheap flights"]).
  { vm_compute in Hin.
    repeat (destruct Hin as [<- | Hin];
            [eexists; split; [reflexivity | split; [reflexivity | simpl; tauto]] |]).
    contradiction. }
  destruct H as (t & Ht & Hl & Hcases).
  rewrite (sample_matching_rows _ query r t Hin Hm Ht Hl).
  simpl in Hcases. destruct Hcases as [<- | [<- | [<- | []]]]; sorted_periods.
Qed.

Lemma V3_sample_ascending (query : string) (r : list cell) :
  In r (rows (frame_of V3.sample_data)) ->
  matches query (term_of (frame_of V3.sample_data) r) = true ->
  ascending_periods (frame_of V3.sample_data) (matching_rows (frame_of V3.sample_data) query).
Proof.
  intros Hin Hm.
  assert (H : exists t, term_of (frame_of V3.sample_data) r = CStr t /\ lower t = t
                        /\ In t ["best laptops"; "python tutorial"]).
  { vm_compute in Hin.
    repeat (destruct Hin as [<- | Hin];
            [eexists; split; [reflexivity | split; [reflexivity | simpl; tauto]] |]).
    contradiction. }
  destruct H as (t & Ht & Hl & Hcases).
  rewrite (sample_matching_rows _ query r t Hin Hm Ht Hl).
  simpl in Hcases. destruct Hcases as [<- | [<- | []]]; sorted_periods.
Qed.

Ltac same_letters :=
  repeat (first
    [ apply doic_nil
    | apply doic_cons;
      [ first [ left; reflexivity
              | right; left; split; reflexivity
              | right; right; split; reflexivity ] | ] ]).

(** ** The remote lookup *)

Lemma try_except_outcome {A} (body : M A) (catches : exn -> bool) (handler : exn -> M A) :
  outcome (try_except body catches handler)
  = match outcome body with
    | Ok a => Ok a
    | Raise e => if catches e then outcome (handler e) else Raise e
    end.
Proof.
  destruct body as [l [a | e]]; simpl; [reflexivity |].
  destruct (catches e); [| reflexivity]. destruct (handler e); reflexivity.
Qed.

Lemma try_except_caught {A} (body : M A) (catches : exn -> bool) (handler : exn -> M A)
    (e : exn) :
  outcome body = Raise e -> catches e = true ->
  try_except body catches handler
  = (shown body ++ shown (handler e), outcome (handler e)).
Proof.
  destruct body as [l r]; simpl; intros -> Hc. rewrite Hc.
  destruct (handler e); reflexivity.
Qed.

Lemma try_except_returned {A} (body : M A) (catches : exn -> bool) (handler : exn -> M A)
    (a : A) :
  outcome body = Ok a -> try_except body catches handler = body.
Proof. destruct body as [l r]; simpl; intros ->. reflexivity. Qed.

Lemma outcome_bind_call {A B} (r : result A) (k : A -> M B) :
  outcome (bind (call r) k)
  = match r with Ok a => outcome (k a) | Raise e => Raise e end.
Proof. destruct r as [a | e]; [now rewrite bind_call_Ok | reflexivity]. Qed.

Lemma outcome_bind_emit {B} (ev : event) (k : unit -> M B) :
  outcome (bind (emit ev) k) = outcome (k tt).
Proof. now rewrite bind_emit. Qed.

(** What the library calls of [show_trends] raise are exceptions. *)
Lemma trends_table_raises (t : V3.trends_frame) (term : string) (e : exn) :
  V3.trends_table t term = Raise e -> is_Exception e = true.
Proof.
  unfold V3.trends_table. destruct (index_of term (V3.t_columns t)).
  - destruct (Nat.eqb _ 1); [discriminate | now intros [= <-]].
  - now intros [= <-].
Qed.

Lemma px_line_raises (df : DataFrame) (x y title : string) (e : exn) :
  px_line df x y title = Raise e -> is_Exception e = true.
Proof.
  unfold px_line. destruct (has_column df x); [| now intros [= <-]].
  destruct (has_column df y); [discriminate | now intros [= <-]].
Qed.

Lemma getitem_raises (df : DataFrame) (c : string) (e : exn) :
  getitem df c = Raise e -> is_Exception e = true.
Proof.
  unfold getitem. destruct (index_of c (columns df));
    [discriminate | now intros [= <-]].
Qed.

Lemma mean_operands_raises (s : list cell) (e : exn) :
  mean_operands s = Raise e -> is_Exception e = true.
Proof.
  unfold mean_operands. destruct (existsb is_str s); [now intros [= <-] |].
  destruct (ints s); [now intros [= <-] | discriminate].
Qed.

Create HintDb raises.
#[local] Hint Resolve trends_table_raises px_line_raises getitem_raises
  mean_operands_raises : raises.

Lemma show_trends_raises (t : V3.trends_frame) (term : string) (e : exn) :
  outcome (V3.show_trends t term) = Raise e -> is_Exception e = true.
Proof.
  unfold V3.show_trends.
  destruct (existsb (String.eqb term) (V3.t_columns t) && negb (V3.t_empty t));
    [| discriminate].
  rewrite outcome_bind_call.
  destruct (V3.trends_table t term) as [df |] eqn:E1;
    [| intros [= <-]; eauto with raises].
  rewrite outcome_bind_call.
  destruct (px_line df _ _ _) as [fig |] eqn:E2;
    [| intros [= <-]; eauto with raises].
  rewrite outcome_bind_emit, outcome_bind_call.
  destruct (getitem df _) as [interest |] eqn:E3;
    [| intros [= <-]; eauto with raises].
  rewrite outcome_bind_call.
  destruct (mean_operands interest) as [ops |] eqn:E4;
    [discriminate | intros [= <-]; eauto with raises].
Qed.

Lemma show_trends_empty (t : V3.trends_frame) (term : string) :
  V3.t_empty t = true ->
  V3.show_trends t term
  = ([st_warning ("No Google Trends data found for '" ++ term
                  ++ "'. Try another term or check spelling.")], Ok tt).
Proof.
  intros H. unfold V3.show_trends. rewrite H, andb_false_r. reflexivity.
Qed.

(** The body of the [try] of lines 82-108. *)
Lemma remote_body_raises (svc : V3.trends_service) (term : string) (e : exn) :
  (forall e, V3.build_payload svc term = Raise e -> is_Exception e = true) ->
  (forall e, V3.interest_over_time svc term = Raise e -> is_Exception e = true) ->
  outcome (_ <- call (V3.build_payload svc term) ;;
           trends_data <- call (V3.interest_over_time svc term) ;;
           V3.show_trends trends_data term) = Raise e ->
  is_Exception e = true.
Proof.
  intros Hb Hi. rewrite outcome_bind_call.
  destruct (V3.build_payload svc term) as [u | e1] eqn:E1;
    [| intros [= <-]; now apply Hb].
  rewrite outcome_bind_call.
  destruct (V3.interest_over_time svc term) as [t | e2] eqn:E2;
    [| intros [= <-]; now apply Hi].
  apply show_trends_raises.
Qed.

Lemma remote_body_cut_short (svc : V3.trends_service) (term : string) (e : exn) :
  remote_raises svc term e ->
  (_ <- call (V3.build_payload svc term) ;;
   trends_data <- call (V3.interest_over_time svc term) ;;
   V3.show_trends trends_data term) = ([], Raise e).
Proof.
  intros [H | [H1 H2]].
  - rewrite H. reflexivity.
  - rewrite H1, bind_call_Ok, H2. reflexivity.
Qed.

Lemma fetch_trends_returns (svc : V3.trends_service) (pytrends : bool) (term : string) :
  (forall e, V3.build_payload svc term = Raise e -> is_Exception e = true) ->
  (forall e, V3.interest_over_time svc term = Raise e -> is_Exception e = true) ->
  outcome (V3.fetch_trends svc pytrends term) = Ok tt.
Proof.
  intros Hb Hi. unfold V3.fetch_trends.
  destruct (truthy term); [destruct pytrends |]; simpl andb; cbv iota; try reflexivity.
  rewrite outcome_bind_emit, try_except_outcome.
  destruct (outcome (_ <- call (V3.build_payload svc term) ;; _)) as [[] | e] eqn:E;
    [reflexivity |].
  rewrite (remote_body_raises svc term e Hb Hi E). reflexivity.
Qed.

Lemma fetch_trends_unavailable (svc : V3.trends_service) (term : string) :
  truthy term = true ->
  V3.fetch_trends svc false term
  = ([st_error "Google Trends integration unavailable. Please check your connection or try again later."],
     Ok tt).
Proof. intros Ht. unfold V3.fetch_trends. rewrite Ht. reflexivity. Qed.

Lemma fetch_trends_failed (svc : V3.trends_service) (term : string) (e : exn) :
  truthy term = true -> is_Exception e = true -> remote_raises svc term e ->
  V3.fetch_trends svc true term
  = ([st_write ("Fetching Google Trends data for '" ++ term ++ "'...");
      st_error ("Error fetching Google Trends data: " ++ str e)], Ok tt).
Proof.
  intros Ht He Hr. unfold V3.fetch_trends. rewrite Ht. simpl andb. cbv iota.
  rewrite bind_emit, (remote_body_cut_short svc term e Hr).
  simpl. rewrite He. reflexivity.
Qed.

Lemma fetch_trends_skipped (svc : V3.trends_service) (pytrends : bool) (term : string) :
  truthy term = false -> V3.fetch_trends svc pytrends term = ([], Ok tt).
Proof. intros Ht. unfold V3.fetch_trends. rewrite Ht. reflexivity. Qed.

Lemma init_pytrends_failed (svc : V3.trends_service) (e : exn) :
  V3.TrendReq svc = Raise e -> is_Exception e = true ->
  V3.init_pytrends svc
  = ([st_error ("Error initializing Google Trends: " ++ str e)], Ok false).
Proof.
  intros H He. unfold V3.init_pytrends. rewrite H. simpl. rewrite He. reflexivity.
Qed.

(** Lines 80-138, were they to run.  When the remote lookup fails, because
    there is no client or because the lookup raises, and the Dataset has a
    record whose term equals the locally selected term up to case, the two
    lookups return and end with the chart of the local series. *)
Lemma remote_failure_keeps_local_lookup
    (svc : V3.trends_service) (pytrends : bool) (df : DataFrame)
    (term local_term : string) :
  is_dataset df = true -> truthy local_term = true ->
  (exists r, In r (rows df) /\ matches local_term (term_of df r) = true) ->
  remote_fails svc pytrends term ->
  exists before,
    V3.lookups svc pytrends df term local_term
    = (before
       ++ [st_plotly_chart
             (mkFig (filtered df local_term) "Month" "Search Volume"
                ("Monthly Search Volume for '" ++ local_term ++ "' (Local Data)"));
           st_write_volume_impact local_term (volumes df (matching_rows df local_term))],
       Ok tt)
    /\ existsb is_chart before = false
    /\ (truthy term = true -> existsb is_error before = true).
Proof.
  intros H Ht Hex Hfail.
  pose proof (matching_rows_nonempty df local_term Hex) as Hne.
  assert (Hlocal :
    (_ <- call (getitem df "Search Term") ;; V3.visualize_local df local_term)
    = ([st_plotly_chart
          (mkFig (filtered df local_term) "Month" "Search Volume"
             ("Monthly Search Volume for '" ++ local_term ++ "' (Local Data)"));
        st_write_volume_impact local_term (volumes df (matching_rows df local_term))],
       Ok tt)).
  { rewrite (getitem_at _ _ (proj1 (is_dataset_columns _ H))), bind_call_Ok.
    apply (V3_visualize_local_found df H local_term Ht Hne). }
  unfold V3.lookups. rewrite Hlocal.
  destruct (truthy term) eqn:Hterm.
  - destruct Hfail as [-> | (e & He & Hr)].
    + rewrite (fetch_trends_unavailable svc term Hterm).
      eexists. split; [reflexivity | split; [reflexivity | reflexivity]].
    + destruct pytrends.
      * rewrite (fetch_trends_failed svc term e Hterm He Hr).
        eexists. split; [reflexivity | split; [reflexivity | reflexivity]].
      * rewrite (fetch_trends_unavailable svc term Hterm).
        eexists. split; [reflexivity | split; [reflexivity | reflexivity]].
  - rewrite (fetch_trends_skipped svc pytrends term Hterm).
    exists []. split; [reflexivity | split; [reflexivity | discriminate]].
Qed.

(** Lines 11-15 and 80-112, were they to run.  When the failures of the
    service are exceptions in the sense of [except Exception], neither the
    creation of the client nor the remote lookup lets one escape, and each
    failure is shown as an error. *)
Lemma remote_failures_are_caught (svc : V3.trends_service) (term : string) :
  fails_with_Exceptions svc term ->
  (exists pytrends,
      outcome (V3.init_pytrends svc) = Ok pytrends
      /\ forall e, V3.TrendReq svc = Raise e ->
           pytrends = false
           /\ shown (V3.init_pytrends svc)
              = [st_error ("Error initializing Google Trends: " ++ str e)])
  /\ (forall pytrends, outcome (V3.fetch_trends svc pytrends term) = Ok tt)
  /\ (truthy term = true ->
      shown (V3.fetch_trends svc false term)
      = [st_error "Google Trends integration unavailable. Please check your connection or try again later."])
  /\ (truthy term = true -> forall e, remote_raises svc term e ->
      shown (V3.fetch_trends svc true term)
      = [st_write ("Fetching Google Trends data for '" ++ term ++ "'...");
         st_error ("Error fetching Google Trends data: " ++ str e)]).
Proof.
  intros (Hc & Hb & Hi). repeat split.
  - destruct (V3.TrendReq svc) as [u | e] eqn:E.
    + exists true. split.
      * unfold V3.init_pytrends. rewrite E. reflexivity.
      * discriminate.
    + exists false. rewrite (init_pytrends_failed svc e E (Hc e eq_refl)).
      split; [reflexivity |]. intros e' [= <-]. split; reflexivity.
  - intros pytrends. apply (fetch_trends_returns svc pytrends term Hb Hi).
  - intros Ht. now rewrite (fetch_trends_unavailable svc term Ht).
  - intros Ht e Hr.
    assert (He : is_Exception e = true).
    { destruct Hr as [Hr | [_ Hr]]; [now apply Hb | now apply Hi]. }
    now rewrite (fetch_trends_failed svc term e Ht He Hr).
Qed.

(** Lines 80-112, were they to run.  An empty answer of the service is
    shown as the not-found warning, a lookup cut short by an exception as
    an error. *)
Lemma empty_trends_is_not_found
    (svc : V3.trends_service) (term : string) (answer : V3.trends_frame) :
  truthy term = true ->
  V3.build_payload svc term = Ok tt ->
  V3.interest_over_time svc term = Ok answer ->
  V3.t_empty answer = true ->
  V3.fetch_trends svc true term
  = ([st_write ("Fetching Google Trends data for '" ++ term ++ "'...");
      st_warning ("No Google Trends data found for '" ++ term
                  ++ "'. Try another term or check spelling.")], Ok tt)
  /\ existsb is_error (shown (V3.fetch_trends svc true term)) = false
  /\ forall broken e, is_Exception e = true -> remote_raises broken term e ->
       existsb is_error (shown (V3.fetch_trends broken true term)) = true
       /\ existsb is_warning (shown (V3.fetch_trends broken true term)) = false
       /\ V3.fetch_trends broken true term <> V3.fetch_trends svc true term.
Proof.
  intros Ht Hb Hi Hempty.
  assert (Heq : V3.fetch_trends svc true term
                = ([st_write ("Fetching Google Trends data for '" ++ term ++ "'...");
                    st_warning ("No Google Trends data found for '" ++ term
                                ++ "'. Try another term or check spelling.")], Ok tt)).
  { unfold V3.fetch_trends. rewrite Ht. simpl andb. cbv iota.
    rewrite bind_emit, Hb, bind_call_Ok, Hi, bind_call_Ok.
    rewrite (show_trends_empty answer term Hempty). reflexivity. }
  rewrite Heq. split; [reflexivity | split; [reflexivity |]].
  intros broken e He Hr.
  rewrite (fetch_trends_failed broken term e Ht He Hr).
  split; [reflexivity | split; [reflexivity | discriminate]].
Qed.

(** ** Loading the Dataset *)

Lemma V2_sample_frame : DataFrame_of_dict V2.sample_data = Ok (frame_of V2.sample_data).
Proof. reflexivity. Qed.

Lemma V3_sample_frame : DataFrame_of_dict V3.sample_data = Ok (frame_of V3.sample_data).
Proof. reflexivity. Qed.

(** What the loading of the Dataset does, by the result of reading the
    file. *)
Lemma V2_load_dataset_cases (interference : file -> file) :
  V2.load_dataset interference
  = match read_csv_file (interference (Some (to_csv (frame_of V2.sample_data)))) with
    | Ok df => ([], Ok df)
    | Raise e =>
        if is_FileNotFoundError e
        then ([st_error "Search volume dataset not found. Using sample data."],
              Ok (frame_of V2.sample_data))
        else ([], Raise e)
    end.
Proof.
  unfold V2.load_dataset. rewrite V2_sample_frame, bind_call_Ok.
  destruct (read_csv_file _) as [df | e]; [reflexivity |].
  simpl. destruct (is_FileNotFoundError e); reflexivity.
Qed.

Lemma V3_load_dataset_cases (interference : file -> file) :
  V3.load_dataset interference
  = match read_csv_file (interference (Some (to_csv (frame_of V3.sample_data)))) with
    | Ok df => ([], Ok df)
    | Raise e =>
        if is_FileNotFoundError e
        then ([st_error "Search volume dataset not found. Using sample data."],
              Ok (frame_of V3.sample_data))
        else ([], Raise e)
    end.
Proof.
  unfold V3.load_dataset. rewrite V3_sample_frame, bind_call_Ok.
  destruct (read_csv_file _) as [df | e]; [reflexivity |].
  simpl. destruct (is_FileNotFoundError e); reflexivity.
Qed.

Lemma V2_sample_read_back :
  read_csv (to_csv (frame_of V2.sample_data)) = Ok (frame_of V2.sample_data).
Proof. vm_compute. reflexivity. Qed.

Lemma V3_sample_read_back :
  read_csv (to_csv (frame_of V3.sample_data)) = Ok (frame_of V3.sample_data).
Proof. vm_compute. reflexivity. Qed.

Lemma V2_load_dataset_quiet : V2.load_dataset quiet = ([], Ok (frame_of V2.sample_data)).
Proof.
  rewrite V2_load_dataset_cases. unfold quiet, read_csv_file.
  now rewrite V2_sample_read_back.
Qed.

Lemma V3_load_dataset_quiet : V3.load_dataset quiet = ([], Ok (frame_of V3.sample_data)).
Proof.
  rewrite V3_load_dataset_cases. unfold quiet, read_csv_file.
  now rewrite V3_sample_read_back.
Qed.

(** The round trip is a property of the sample data, not of the format: a
    term that reads as a number comes back as a number, and a quoted term
    comes back as it was. *)
Example numeric_term_is_not_read_back :
  read_csv (to_csv (mkDF required_columns [[CStr "007"; CStr "2025-01"; CInt 5]]))
  = Ok (mkDF required_columns [[CInt 7; CStr "2025-01"; CInt 5]]).
Proof. vm_compute. reflexivity. Qed.

Example quoted_term_is_read_back :
  read_csv (to_csv (mkDF required_columns [[CStr "laptops, cheap"; CStr "2025-01"; CInt 5]]))
  = Ok (mkDF required_columns [[CStr "laptops, cheap"; CStr "2025-01"; CInt 5]]).
Proof. vm_compute. reflexivity. Qed.

(** C7, as the code has it.  When the persistence file is absent at the
    time it is read back, the loading of the Dataset shows the message
    that the sample data is used and returns the sample Dataset.  Only the
    missing file is handled: any other failure of the read is raised
    again with nothing shown, and a file that can be read is taken as the
    Dataset whatever it holds. *)
Theorem missing_file_falls_back_to_sample (interference : file -> file) :
  (interference (Some (to_csv (frame_of V2.sample_data))) = None ->
   V2.load_dataset interference
   = ([st_error "Search volume dataset not found. Using sample data."],
      Ok (frame_of V2.sample_data)))
  /\ (interference (Some (to_csv (frame_of V3.sample_data))) = None ->
      V3.load_dataset interference
      = ([st_error "Search volume dataset not found. Using sample data."],
         Ok (frame_of V3.sample_data)))
  /\ (forall e,
        read_csv_file (interference (Some (to_csv (frame_of V2.sample_data)))) = Raise e ->
        is_FileNotFoundError e = false ->
        V2.load_dataset interference = ([], Raise e))
  /\ (forall e,
        read_csv_file (interference (Some (to_csv (frame_of V3.sample_data)))) = Raise e ->
        is_FileNotFoundError e = false ->
        V3.load_dataset interference = ([], Raise e))
  /\ (forall df,
        read_csv_file (interference (Some (to_csv (frame_of V2.sample_data)))) = Ok df ->
        V2.load_dataset interference = ([], Ok df))
  /\ (forall df,
        read_csv_file (interference (Some (to_csv (frame_of V3.sample_data)))) = Ok df ->
        V3.load_dataset interference = ([], Ok df)).
Proof.
  rewrite V2_load_dataset_cases, V3_load_dataset_cases.
  repeat split.
  - intros ->. reflexivity.
  - intros ->. reflexivity.
  - intros e -> ->. reflexivity.
  - intros e -> ->. reflexivity.
  - intros df ->. reflexivity.
  - intros df ->. reflexivity.
Qed.

Lemma missing_file_falls_back_to_sample_witness :
  V2.load_dataset removed
  = ([st_error "Search volume dataset not found. Using sample data."],
     Ok (frame_of V2.sample_data))
  /\ V3.load_dataset truncated
     = ([], Raise (mk_exn EmptyDataError "No columns to parse from file")).
Proof.
  split.
  - apply (proj1 (missing_file_falls_back_to_sample removed)). reflexivity.
  - apply (missing_file_falls_back_to_sample truncated); reflexivity.
Defined.

(** C7 as stated fails: when the file is present but cannot be read as a
    table, here because it is empty, the loading of the Dataset neither
    falls back to the sample Dataset nor shows a message; the exception of
    the reader leaves the pass. *)
Lemma corrupt_file_is_not_handled :
  ~ (forall interference : file -> file,
        (exists e, read_csv_file (interference (Some (to_csv (frame_of V2.sample_data))))
                   = Raise e) ->
        outcome (V2.load_dataset interference) = Ok (frame_of V2.sample_data)
        /\ existsb is_error (shown (V2.load_dataset interference)) = true).
Proof.
  intros H. destruct (H truncated) as [Hout _].
  - eexists. reflexivity.
  - vm_compute in Hout. discriminate.
Qed.

(** C8.  The sample Dataset survives the persistence file.  The text
    written for it has the header [Search Term,Month,Search Volume] and
    one line per record; reading that text gives a frame equal to the one
    written, with the same columns in the same order and the same rows,
    and writing what was read gives the same text again.  So, when
    nothing else touches the file, a pass loads the sample Dataset and
    shows nothing. *)
Theorem sample_dataset_round_trip :
  to_csv (frame_of V3.sample_data)
  = "Search Term,Month,Search Volume
best laptops,2025-01,120000
best laptops,2025-02,130000
best laptops,2025-03,125000
python tutorial,2025-01,80000
python tutorial,2025-02,85000
python tutorial,2025-03,90000
"
  /\ read_csv (to_csv (frame_of V2.sample_data)) = Ok (frame_of V2.sample_data)
  /\ read_csv (to_csv (frame_of V3.sample_data)) = Ok (frame_of V3.sample_data)
  /\ (forall df, read_csv (to_csv (frame_of V2.sample_data)) = Ok df ->
        columns df = required_columns
        /\ to_csv df = to_csv (frame_of V2.sample_data))
  /\ (forall df, read_csv (to_csv (frame_of V3.sample_data)) = Ok df ->
        columns df = required_columns
        /\ to_csv df = to_csv (frame_of V3.sample_data))
  /\ V2.load_dataset quiet = ([], Ok (frame_of V2.sample_data))
  /\ V3.load_dataset quiet = ([], Ok (frame_of V3.sample_data)).
Proof.
  pose proof V2_sample_read_back as H2. pose proof V3_sample_read_back as H3.
  split; [vm_compute; reflexivity |].
  split; [exact H2 |]. split; [exact H3 |].
  split; [| split; [| split]].
  - rewrite H2. intros df [= <-]. split; reflexivity.
  - rewrite H3. intros df [= <-]. split; reflexivity.
  - exact V2_load_dataset_quiet.
  - exact V3_load_dataset_quiet.
Qed.

(** ** The upload *)

Lemma required_columns_present (df : DataFrame) :
  (forall col, In col required_columns -> has_column df col = true) ->
  forallb (has_column df) required_columns = true.
Proof. intros H. apply forallb_forall. exact H. Qed.

Lemma required_column_missing (df : DataFrame) (col : string) :
  In col required_columns -> has_column df col = false ->
  forallb (has_column df) required_columns = false.
Proof.
  intros Hin Hc. destruct (forallb (has_column df) required_columns) eqn:E; [| reflexivity].
  rewrite forallb_forall in E. rewrite (E col Hin) in Hc. discriminate.
Qed.

(** C2, as the code has it.  When a required column is missing from the
    uploaded table, the upload shows one fixed error message, which lists
    the names of all three required columns, the missing one among them,
    and the script variables are left as they were.  When the three
    columns are present, the variable that holds the Dataset is bound to
    the uploaded table as a whole, so its rows are those of the uploaded
    table and no others. *)
Theorem upload_is_all_or_nothing
    (g : V2.globals) (old_df df_uploaded : DataFrame) :
  (forall col, In col required_columns -> has_column df_uploaded col = false ->
     V2.accept_upload g df_uploaded = ([st_error upload_error], Ok g)
     /\ V3.accept_upload old_df df_uploaded = old_df
     /\ contains upload_error col = true)
  /\ ((forall col, In col required_columns -> has_column df_uploaded col = true) ->
      (exists terms,
          V2.accept_upload g df_uploaded
          = ([st_success upload_success], Ok (V2.mkGlobals df_uploaded terms)))
      /\ V3.accept_upload old_df df_uploaded = df_uploaded).
Proof.
  split.
  - intros col Hin Hmiss.
    unfold V2.accept_upload, V3.accept_upload.
    rewrite (required_column_missing df_uploaded col Hin Hmiss).
    split; [reflexivity | split; [reflexivity |]].
    simpl in Hin. destruct Hin as [<- | [<- | [<- | []]]]; reflexivity.
  - intros Hall.
    unfold V2.accept_upload, V3.accept_upload.
    rewrite (required_columns_present df_uploaded Hall).
    split; [| reflexivity].
    rewrite bind_emit, (getitem_at df_uploaded "Search Term"), bind_call_Ok.
    + eexists. reflexivity.
    + apply Hall. now left.
Qed.

Lemma upload_is_all_or_nothing_witness :
  V2.accept_upload (V2.mkGlobals (frame_of V2.sample_data) []) without_month
  = ([st_error upload_error], Ok (V2.mkGlobals (frame_of V2.sample_data) []))
  /\ V3.accept_upload (frame_of V3.sample_data) uploaded_frame = uploaded_frame.
Proof.
  split.
  - apply (proj1 (upload_is_all_or_nothing (V2.mkGlobals (frame_of V2.sample_data) [])
                    (frame_of V2.sample_data) without_month) "Month").
    + simpl. tauto.
    + reflexivity.
  - apply (proj2 (upload_is_all_or_nothing (V2.mkGlobals (frame_of V2.sample_data) [])
                    (frame_of V3.sample_data) uploaded_frame)).
    intros col Hin. simpl in Hin.
    destruct Hin as [<- | [<- | [<- | []]]]; reflexivity.
Defined.

(** C2 as stated fails: the error of a rejected upload does not name the
    column that is missing.  A table that lacks only [Month] and one that
    lacks only [Search Volume] get the same message, so no reading of what
    is shown gives the missing column. *)
Lemma upload_error_does_not_name_the_column :
  ~ (exists named : list event -> string,
        forall (g : V2.globals) (df_uploaded : DataFrame) (col : string),
          In col required_columns -> has_column df_uploaded col = false ->
          (forall c, In c required_columns -> c <> col -> has_column df_uploaded c = true) ->
          named (shown (V2.accept_upload g df_uploaded)) = col).
Proof.
  intros [named H].
  pose (g := V2.mkGlobals (frame_of V2.sample_data) []).
  assert (Hm : named (shown (V2.accept_upload g without_month)) = "Month").
  { apply H; [simpl; tauto | reflexivity |].
    intros c Hc Hne. simpl in Hc.
    destruct Hc as [<- | [<- | [<- | []]]]; [reflexivity | congruence | reflexivity]. }
  assert (Hv : named (shown (V2.accept_upload g without_volume)) = "Search Volume").
  { apply H; [simpl; tauto | reflexivity |].
    intros c Hc Hne. simpl in Hc.
    destruct Hc as [<- | [<- | [<- | []]]]; [reflexivity | reflexivity | congruence]. }
  assert (Hsame : shown (V2.accept_upload g without_month)
                  = shown (V2.accept_upload g without_volume)) by reflexivity.
  rewrite Hsame, Hv in Hm. discriminate.
Qed.

(** On a Dataset the local lookup of version 2 returns normally. *)
Lemma V2_visualize_returns (df : DataFrame) (query : string) :
  is_dataset df = true -> outcome (V2.visualize df query) = Ok tt.
Proof.
  intros H. destruct (truthy query) eqn:Ht.
  - destruct (matching_rows df query) as [| r rs] eqn:E.
    + now rewrite (V2_visualize_not_found df H query Ht E).
    + rewrite (V2_visualize_found df H query Ht); [reflexivity |].
      rewrite E. discriminate.
  - unfold V2.visualize. now rewrite Ht.
Qed.

(** When nothing else touches the persistence file, a pass of version 2
    looks the term up in the sample Dataset, and ends its lookup with the
    sample Dataset in [df_search]: no uploaded table is ever consulted. *)
Lemma V2_resolve_from_sample (selected_term custom_term : string) :
  V2.resolve quiet selected_term custom_term
  = (shown (V2.visualize (frame_of V2.sample_data)
              (V2.term_to_use selected_term custom_term)),
     Ok (V2.mkGlobals (frame_of V2.sample_data)
           [CStr "best laptops"; CStr "python tutorial"; CStr "cheap flights"])).
Proof.
  unfold V2.resolve. rewrite V2_load_dataset_quiet.
  change (@pair (list event) (result DataFrame) [] (Ok (frame_of V2.sample_data)))
    with (ret (frame_of V2.sample_data)).
  rewrite bind_ret.
  change (getitem (frame_of V2.sample_data) "Search Term")
    with (Ok (map (at_column (frame_of V2.sample_data) "Search Term")
                  (rows (frame_of V2.sample_data)))).
  rewrite bind_call_Ok. cbv zeta.
  change (V2.df_search (V2.mkGlobals (frame_of V2.sample_data) _))
    with (frame_of V2.sample_data).
  pose proof (V2_visualize_returns (frame_of V2.sample_data)
                (V2.term_to_use selected_term custom_term) eq_refl) as Hret.
  destruct (V2.visualize _ _) as [evs r]. simpl in Hret. subst r.
  unfold bind, ret, shown, fst. rewrite app_nil_r. reflexivity.
Qed.

(** What a pass of version 2 shows up to the upload block does not depend
    on the uploaded file: the series of the pass is resolved from the
    Dataset as the pass built it. *)
Lemma upload_does_not_change_the_display (i : V2.inputs) (g : V2.globals) :
  outcome (V2.resolve (V2.interference i) (V2.selected_term i) (V2.custom_term i)) = Ok g ->
  shown (V2.render i)
  = shown (V2.resolve (V2.interference i) (V2.selected_term i) (V2.custom_term i))
    ++ shown (V2.upload g (V2.uploaded_file i)).
Proof.
  intros H. unfold V2.render.
  exact (shown_bind_Ok _ (fun g' => V2.upload g' (V2.uploaded_file i)) g H).
Qed.

(** C10 at its failing input.  Two passes of version 2 with the same
    uploaded file, which has the three columns and a record for the term
    [foo]; the second pass asks for [foo].  The first pass ends with the
    uploaded table as the Dataset, but the second pass builds the Dataset
    from the sample data again before it looks the term up, so it shows
    the not-found warning: the upload replaces the Dataset for no later
    pass either. *)
Theorem upload_is_not_seen_by_later_passes :
  V2.session [ V2.mkInputs quiet "" "" (Some uploaded_csv);
               V2.mkInputs quiet "" "foo" (Some uploaded_csv) ]
  = [ ([st_info "Select or enter a search term to view its monthly search volume trends.";
        st_success upload_success],
       Ok (V2.mkGlobals uploaded_frame [CStr "foo"]));
      ([st_warning "No data found for 'foo'. Please select another term or ensure data is available.";
        st_success upload_success],
       Ok (V2.mkGlobals uploaded_frame [CStr "foo"])) ].
Proof. vm_compute. reflexivity. Qed.

(** ** Worked passes *)

(** The example of the specification: three records of one term, asked for
    in another spelling. *)
Example three_records_in_dataset_order :
  shown (V2.visualize
           (mkDF required_columns
              [ [CStr "best laptops"; CStr "2025-01"; CInt 120000];
                [CStr "best laptops"; CStr "2025-02"; CInt 130000];
                [CStr "best laptops"; CStr "2025-03"; CInt 125000] ])
           "Best Laptops")
  = [ st_plotly_chart
        (mkFig (mkDF required_columns
                  [ [CStr "best laptops"; CStr "2025-01"; CInt 120000];
                    [CStr "best laptops"; CStr "2025-02"; CInt 130000];
                    [CStr "best laptops"; CStr "2025-03"; CInt 125000] ])
               "Month" "Search Volume" "Monthly Search Volume for 'Best Laptops'");
      st_write_volume_impact "Best Laptops" [120000; 130000; 125000]%Z ].
Proof. vm_compute. reflexivity. Qed.

(** ** Further properties of the upload and of whole passes *)

Lemma index_of_In (c : string) (cols : list string) :
  (exists i, index_of c cols = Some i) <-> In c cols.
Proof.
  induction cols as [| c' cols IH]; simpl.
  - split; [intros [i Hi]; discriminate | contradiction].
  - destruct (String.eqb c c') eqn:E.
    + apply String.eqb_eq in E. subst. split; [now left | intros _; now exists O].
    + apply String.eqb_neq in E. split.
      * intros [i Hi]. right. apply IH.
        destruct (index_of c cols) as [k |]; [now exists k | discriminate].
      * intros [Heq | Hin]; [congruence |].
        apply IH in Hin as [k Hk]. rewrite Hk. now exists (S k).
Qed.

Lemma has_column_In (df : DataFrame) (c : string) :
  has_column df c = true <-> In c (columns df).
Proof.
  rewrite <- index_of_In. unfold has_column.
  destruct (index_of c (columns df)) as [i |]; split; try discriminate.
  - intros _. now exists i.
  - reflexivity.
  - intros [i Hi]. discriminate.
Qed.

Lemma bind_Ok_pair {A B} (l : list event) (a : A) (k : A -> M B) :
  bind (l, Ok a) k = (l ++ shown (k a), outcome (k a)).
Proof. unfold bind, shown, outcome. destruct (k a); reflexivity. Qed.

(** What the column check of version 2 shows tells whether the table was
    accepted. *)
Lemma V2_accept_upload_cases (g : V2.globals) (df_uploaded : DataFrame) :
  V2.accept_upload g df_uploaded
  = if forallb (has_column df_uploaded) required_columns
    then ([st_success upload_success],
          Ok (V2.mkGlobals df_uploaded
                (unique (map (at_column df_uploaded "Search Term") (rows df_uploaded)))))
    else ([st_error upload_error], Ok g).
Proof.
  unfold V2.accept_upload.
  destruct (forallb (has_column df_uploaded) required_columns) eqn:E; [| reflexivity].
  rewrite bind_emit, getitem_at, bind_call_Ok; [reflexivity |].
  rewrite forallb_forall in E. apply E. now left.
Qed.

(** X1.  Whether an upload is accepted depends on the set of its column
    labels only: a table that is accepted stays accepted, and becomes the
    Dataset, when columns are added or put in another order, whatever its
    rows are. *)
Theorem upload_acceptance_is_monotone
    (g g' : V2.globals) (old_df df df' : DataFrame) :
  (forall c, In c (columns df) -> In c (columns df')) ->
  shown (V2.accept_upload g df) = [st_success upload_success] ->
  shown (V2.accept_upload g' df') = [st_success upload_success]
  /\ (exists terms, outcome (V2.accept_upload g' df') = Ok (V2.mkGlobals df' terms))
  /\ V3.accept_upload old_df df' = df'.
Proof.
  intros Hincl Hacc.
  assert (Hall : forallb (has_column df') required_columns = true).
  { rewrite V2_accept_upload_cases in Hacc.
    destruct (forallb (has_column df) required_columns) eqn:E; [| discriminate].
    rewrite forallb_forall in E. apply forallb_forall. intros c Hc.
    apply has_column_In, Hincl, has_column_In, E, Hc. }
  rewrite V2_accept_upload_cases. unfold V3.accept_upload. rewrite Hall.
  split; [reflexivity | split; [eexists; reflexivity | reflexivity]].
Qed.

Lemma upload_acceptance_is_monotone_witness :
  shown (V2.accept_upload sample_globals wide_upload) = [st_success upload_success]
  /\ shown (V2.accept_upload sample_globals lower_case_labels) = [st_error upload_error].
Proof.
  split; [| reflexivity].
  apply (upload_acceptance_is_monotone sample_globals sample_globals
           (frame_of V2.sample_data) uploaded_frame wide_upload).
  - intros c Hc. simpl in Hc. simpl.
    destruct Hc as [<- | [<- | [<- | []]]]; tauto.
  - reflexivity.
Defined.

Lemma bind_cons_shown {A B} (ev : event) (l : list event) (r : result A) (k : A -> M B) :
  bind (ev :: l, r) k = (ev :: shown (bind (l, r) k), outcome (bind (l, r) k)).
Proof.
  destruct r as [a | e]; simpl; [| reflexivity]. destruct (k a); reflexivity.
Qed.

Lemma pair_shown_outcome {A} (m : M A) : (shown m, outcome m) = m.
Proof. destruct m; reflexivity. Qed.

Lemma V2_upload_cases (g : V2.globals) (uploaded_file : option string) :
  V2.upload g uploaded_file
  = match uploaded_file with
    | None => ([], Ok g)
    | Some text =>
        match read_csv text with
        | Raise e => ([], Raise e)
        | Ok df_uploaded => V2.accept_upload g df_uploaded
        end
    end.
Proof.
  destruct uploaded_file as [text |]; [| reflexivity].
  unfold V2.upload. destruct (read_csv text); [now rewrite bind_call_Ok | reflexivity].
Qed.

Lemma V2_accept_upload_returns (g : V2.globals) (df_uploaded : DataFrame) :
  exists g', outcome (V2.accept_upload g df_uploaded) = Ok g'.
Proof.
  rewrite V2_accept_upload_cases.
  destruct (forallb _ _); eexists; reflexivity.
Qed.

Lemma V2_render_quiet (selected_term custom_term : string) (uploaded_file : option string) :
  V2.render (V2.mkInputs quiet selected_term custom_term uploaded_file)
  = (shown (V2.visualize (frame_of V2.sample_data)
              (V2.term_to_use selected_term custom_term))
     ++ shown (V2.upload sample_globals uploaded_file),
     outcome (V2.upload sample_globals uploaded_file)).
Proof.
  unfold V2.render. simpl V2.interference. simpl V2.selected_term.
  simpl V2.custom_term. simpl V2.uploaded_file.
  rewrite V2_resolve_from_sample.
  exact (bind_Ok_pair _ sample_globals (fun g => V2.upload g uploaded_file)).
Qed.

(** X3.  The fallback for a missing persistence file is transparent to the
    rest of the pass: a pass of version 2 that finds no file shows the
    fallback message first and then exactly what the pass with an
    untouched file shows, and it ends in the same way. *)
Theorem fallback_pass_continues_as_usual
    (interference : file -> file) (selected_term custom_term : string)
    (uploaded_file : option string) :
  interference (Some (to_csv (frame_of V2.sample_data))) = None ->
  V2.render (V2.mkInputs interference selected_term custom_term uploaded_file)
  = (st_error "Search volume dataset not found. Using sample data."
       :: shown (V2.render (V2.mkInputs quiet selected_term custom_term uploaded_file)),
     outcome (V2.render (V2.mkInputs quiet selected_term custom_term uploaded_file))).
Proof.
  intros Hgone. unfold V2.render, V2.resolve.
  simpl V2.interference. simpl V2.selected_term. simpl V2.custom_term.
  simpl V2.uploaded_file.
  rewrite V2_load_dataset_quiet, V2_load_dataset_cases, Hgone.
  unfold read_csv_file, is_FileNotFoundError, class_of.
  rewrite !bind_Ok_pair. simpl app.
  rewrite bind_cons_shown, !pair_shown_outcome. reflexivity.
Qed.

Lemma fallback_pass_continues_as_usual_witness :
  V2.render (V2.mkInputs removed "" "foo" None)
  = ([st_error "Search volume dataset not found. Using sample data.";
      st_warning "No data found for 'foo'. Please select another term or ensure data is available."],
     Ok sample_globals).
Proof.
  rewrite (fallback_pass_continues_as_usual removed "" "foo" None); reflexivity.
Defined.

(** ** The local lookup on frames that are not Datasets *)

Lemma getitem_missing (df : DataFrame) (c : string) :
  has_column df c = false -> getitem df c = Raise (mk_exn KeyError (repr c)).
Proof.
  unfold has_column, getitem.
  destruct (index_of c (columns df)); [discriminate | reflexivity].
Qed.

(** X6.  The terms are lowercased through the string accessor of their
    column, which exists for columns of strings only: on a table with rows
    whose column [Search Term] holds no string at all, a lookup for any
    term that is not empty ends with [AttributeError] with nothing
    shown. *)
Theorem lookup_on_numeric_terms_raises (df : DataFrame) (query : string) :
  has_column df "Search Term" = true ->
  rows df <> [] ->
  existsb is_str (map (at_column df "Search Term") (rows df)) = false ->
  truthy query = true ->
  V2.visualize df query
  = ([], Raise (mk_exn AttributeError "Can only use .str accessor with string values!"))
  /\ V3.visualize_local df query
     = ([], Raise (mk_exn AttributeError "Can only use .str accessor with string values!")).
Proof.
  intros Hc Hrows Hnone Hq.
  assert (Hraise : str_lower (map (at_column df "Search Term") (rows df))
                   = Raise (mk_exn AttributeError
                              "Can only use .str accessor with string values!")).
  { unfold str_lower, is_object.
    destruct (rows df) as [| r rs]; [congruence |].
    change (map (at_column df "Search Term") (r :: rs))
      with (at_column df "Search Term" r :: map (at_column df "Search Term") rs) in *.
    now rewrite Hnone. }
  unfold V2.visualize, V3.visualize_local. rewrite Hq.
  rewrite (getitem_at _ _ Hc), !bind_call_Ok, Hraise. split; reflexivity.
Qed.

Lemma lookup_on_numeric_terms_raises_witness :
  V2.visualize numeric_terms "2024"
  = ([], Raise (mk_exn AttributeError "Can only use .str accessor with string values!")).
Proof.
  apply (lookup_on_numeric_terms_raises numeric_terms "2024"); try reflexivity.
  discriminate.
Defined.

(** ** The series of a Dataset *)

Lemma differ_only_in_case_truthy (s t : string) :
  differ_only_in_case s t -> truthy s = truthy t.
Proof. now destruct 1. Qed.

(** ** The terms of the select box *)

Lemma cell_eqb_eq (a b : cell) : cell_eqb a b = true <-> a = b.
Proof.
  destruct a as [s | x |], b as [t | y |]; simpl; split; try discriminate;
    try reflexivity.
  - intros H. apply String.eqb_eq in H. now subst.
  - intros [= ->]. apply String.eqb_refl.
  - intros H. apply Z.eqb_eq in H. now subst.
  - intros [= ->]. apply Z.eqb_refl.
Qed.

Lemma seen_In (c : cell) (seen : list cell) :
  existsb (cell_eqb c) seen = true <-> In c seen.
Proof.
  rewrite existsb_exists. split.
  - intros (d & Hd & E). apply cell_eqb_eq in E. now subst.
  - intros H. exists c. split; [exact H | now apply cell_eqb_eq].
Qed.

Lemma unique_from_In (s : list cell) :
  forall seen c, In c (unique_from seen s) <-> In c s /\ ~ In c seen.
Proof.
  induction s as [| d s IH]; intros seen c; simpl.
  - tauto.
  - destruct (existsb (cell_eqb d) seen) eqn:E.
    + apply seen_In in E. rewrite IH. split.
      * intros [H1 H2]. split; [now right | exact H2].
      * intros [[-> | H1] H2]; [contradiction | now split].
    + assert (Hd : ~ In d seen).
      { intros Hin. apply seen_In in Hin. congruence. }
      simpl. rewrite IH. simpl. split.
      * intros [<- | [H1 H2]]; [split; [now left | exact Hd] |].
        split; [now right | tauto].
      * intros [[-> | H1] H2]; [now left |].
        destruct (cell_eqb d c) eqn:Edc.
        -- left. now apply cell_eqb_eq.
        -- right. split; [exact H1 |]. intros [-> | H]; [| contradiction].
           assert (cell_eqb c c = true) by now apply cell_eqb_eq.
           congruence.
Qed.

Lemma unique_from_NoDup (s : list cell) : forall seen, NoDup (unique_from seen s).
Proof.
  induction s as [| d s IH]; intros seen; simpl; [constructor |].
  destruct (existsb (cell_eqb d) seen); [apply IH |].
  constructor; [| apply IH].
  intros Hin. apply unique_from_In in Hin as [_ Hin]. apply Hin. now left.
Qed.

Lemma unique_In (s : list cell) (c : cell) : In c (unique s) <-> In c s.
Proof. unfold unique. rewrite unique_from_In. simpl. tauto. Qed.

Lemma unique_NoDup (s : list cell) : NoDup (unique s).
Proof. apply unique_from_NoDup. Qed.

Lemma V2_resolve_globals (interference : file -> file)
    (selected_term custom_term : string) (g : V2.globals) :
  outcome (V2.resolve interference selected_term custom_term) = Ok g ->
  V2.search_terms g
  = unique (map (at_column (V2.df_search g) "Search Term") (rows (V2.df_search g))).
Proof.
  unfold V2.resolve.
  destruct (V2.load_dataset interference) as [l [df | e]]; [| discriminate].
  rewrite bind_Ok_pair.
  destruct (has_column df "Search Term") eqn:Hc.
  - rewrite (getitem_at _ _ Hc), bind_call_Ok. cbv zeta.
    change (V2.df_search (V2.mkGlobals df ?t)) with df.
    destruct (V2.visualize df _) as [l' [[] | e]]; [| discriminate].
    rewrite bind_Ok_pair. unfold outcome, ret, snd. now intros [= <-].
  - rewrite (getitem_missing _ _ Hc). discriminate.
Qed.

(** X9.  The list of terms for the select box holds every term of the
    table it is taken from, each one once: after the lookup of a pass of
    version 2 that returns, and after an upload that is accepted, a cell is
    in [search_terms] exactly when some row of [df_search] has it in the
    column [Search Term], and no cell is in the list twice. *)
Theorem search_terms_are_the_distinct_terms :
  (forall interference selected_term custom_term g,
      outcome (V2.resolve interference selected_term custom_term) = Ok g ->
      NoDup (V2.search_terms g)
      /\ forall c, In c (V2.search_terms g)
                   <-> exists r, In r (rows (V2.df_search g))
                                 /\ term_of (V2.df_search g) r = c)
  /\ (forall g df_uploaded,
        forallb (has_column df_uploaded) required_columns = true ->
        exists g',
          outcome (V2.accept_upload g df_uploaded) = Ok g'
          /\ V2.df_search g' = df_uploaded
          /\ NoDup (V2.search_terms g')
          /\ forall c, In c (V2.search_terms g')
                       <-> exists r, In r (rows df_uploaded) /\ term_of df_uploaded r = c).
Proof.
  split.
  - intros interference selected_term custom_term g Hg.
    rewrite (V2_resolve_globals _ _ _ _ Hg). split; [apply unique_NoDup |].
    intros c. rewrite unique_In, in_map_iff. unfold term_of.
    split; intros (r & H1 & H2); exists r; tauto.
  - intros g df_uploaded Hall. rewrite V2_accept_upload_cases, Hall.
    eexists. split; [reflexivity |]. simpl. split; [reflexivity |].
    split; [apply unique_NoDup |].
    intros c. rewrite unique_In, in_map_iff. unfold term_of.
    split; intros (r & H1 & H2); exists r; tauto.
Qed.

Lemma search_terms_are_the_distinct_terms_witness :
  NoDup (V2.search_terms sample_globals)
  /\ In (CStr "python tutorial") (V2.search_terms sample_globals).
Proof.
  destruct (proj1 search_terms_are_the_distinct_terms quiet "" "" sample_globals)
    as [Hnodup Hin].
  - now rewrite V2_resolve_from_sample.
  - split; [exact Hnodup |]. apply Hin.
    exists [CStr "python tutorial"; CStr "2025-01"; CInt 80000]. split.
    + vm_compute. tauto.
    + reflexivity.
Defined.

(** ** The impact line *)

Lemma ints_of_int_cells (s : list cell) :
  forallb is_int s = true -> map CInt (ints s) = s.
Proof.
  induction s as [| c s IH]; [reflexivity |].
  simpl. intros H. apply andb_true_iff in H as [Hc Hs].
  destruct c; try discriminate. simpl. now rewrite (IH Hs).
Qed.

(** X15.  The estimate of the impact is taken over the whole series.  For
    a term with a match in a Dataset, the impact line of either version is
    computed from the values of the column [Search Volume] of the rows of
    the chart, all of them and in their order: no record of the series is
    left out of the mean. *)
Theorem impact_uses_every_record (df : DataFrame) (query : string) :
  is_dataset df = true -> truthy query = true -> matching_rows df query <> [] ->
  exists fig2 fig3 operands,
    shown (V2.visualize df query)
    = [st_plotly_chart fig2; st_write_volume_impact query operands]
    /\ shown (V3.visualize_local df query)
       = [st_plotly_chart fig3; st_write_volume_impact query operands]
    /\ map CInt operands = map (volume_of df) (rows (data fig2))
    /\ rows (data fig3) = rows (data fig2)
    /\ List.length operands = List.length (rows (data fig2)).
Proof.
  intros H Ht Hne.
  rewrite (V2_visualize_found df H query Ht Hne).
  rewrite (V3_visualize_local_found df H query Ht Hne).
  do 2 eexists. exists (volumes df (matching_rows df query)).
  split; [reflexivity | split; [reflexivity |]].
  assert (Hmap : map CInt (volumes df (matching_rows df query))
                 = map (volume_of df) (matching_rows df query))
    by apply ints_of_int_cells, (matching_volumes_are_numbers df H query).
  split; [exact Hmap | split; [reflexivity |]].
  simpl. rewrite <- (length_map CInt), Hmap. apply length_map.
Qed.

Lemma impact_uses_every_record_witness :
  exists fig2 fig3,
    shown (V2.visualize (frame_of V2.sample_data) "cheap flights")
    = [st_plotly_chart fig2;
       st_write_volume_impact "cheap flights" [200000; 210000; 190000]%Z]
    /\ shown (V3.visualize_local (frame_of V2.sample_data) "cheap flights")
       = [st_plotly_chart fig3;
          st_write_volume_impact "cheap flights" [200000; 210000; 190000]%Z].
Proof.
  destruct (impact_uses_every_record (frame_of V2.sample_data) "cheap flights")
    as (fig2 & fig3 & operands & H2 & H3 & Hmap & _).
  - reflexivity.
  - reflexivity.
  - discriminate.
  - exists fig2, fig3.
    assert (Hfig : rows (data fig2) = matching_rows (frame_of V2.sample_data) "cheap flights").
    { rewrite (V2_visualize_found (frame_of V2.sample_data) eq_refl "cheap flights" eq_refl)
        in H2 by discriminate.
      now injection H2 as <- _. }
    rewrite Hfig in Hmap. vm_compute in Hmap.
    assert (Hops : operands = [200000; 210000; 190000]%Z).
    { destruct operands as [| a [| b [| c [| d ?]]]]; try discriminate.
      now injection Hmap as -> -> ->. }
    rewrite H2, H3, Hops. split; reflexivity.
Defined.

(** ** Version 2 over a library *)

(** At the modelled library the pass is the pass of [V2]. *)
Lemma render_modelled (i : V2.inputs) : V2L.render modelled i = V2.render i.
Proof. reflexivity. Qed.

Lemma visualize_modelled (df : DataFrame) (term : string) :
  V2L.visualize modelled df term = V2.visualize df term.
Proof. reflexivity. Qed.

Section Library.

Variable L : library.

Lemma str_lower_strings_by (s : list cell) :
  forallb is_str s = true ->
  V2L.str_lower L s
  = Ok (map (fun c => match c with CStr t => CStr (lower_of L t) | _ => CNaN end) s).
Proof.
  intros H. unfold V2L.str_lower.
  assert (is_object s = true) as ->; [| reflexivity].
  destruct s as [| c s]; [reflexivity |].
  simpl in *. apply andb_true_iff in H as [-> _]. reflexivity.
Qed.

Lemma select_rows_matching_by (f : list cell -> cell) (rs : list (list cell))
    (query : string) :
  select_rows rs
    (eq_str (map (fun c => match c with CStr t => CStr (lower_of L t) | _ => CNaN end)
                 (map f rs))
            (lower_of L query))
  = filter (fun r => matches_by L query (f r)) rs.
Proof.
  induction rs as [| r rs IH]; [reflexivity |].
  simpl. rewrite IH. unfold matches_by. destruct (f r); reflexivity.
Qed.

Lemma matches_by_spec (query : string) (c : cell) :
  matches_by L query c = true <-> exists t, c = CStr t /\ same_up_to_case L t query.
Proof.
  unfold matches_by, same_up_to_case. split.
  - destruct c as [t | |]; try discriminate.
    intros H. exists t. split; [reflexivity | now apply String.eqb_eq].
  - intros [t [-> H]]. now apply String.eqb_eq.
Qed.

Lemma matching_rows_by_in (df : DataFrame) (query : string) (r : list cell) :
  In r (matching_rows_by L df query) <->
  In r (rows df) /\ matches_by L query (term_of df r) = true.
Proof. unfold matching_rows_by. apply filter_In. Qed.

Lemma matching_rows_by_lower (df : DataFrame) (q q' : string) :
  same_up_to_case L q q' -> matching_rows_by L df q = matching_rows_by L df q'.
Proof.
  intros H. unfold matching_rows_by. apply filter_ext. intros r.
  unfold matches_by. now rewrite H.
Qed.

Lemma matching_rows_by_nonempty (df : DataFrame) (query : string) :
  (exists r, In r (rows df) /\ matches_by L query (term_of df r) = true) ->
  matching_rows_by L df query <> [].
Proof.
  intros [r Hr] Hnil. apply matching_rows_by_in in Hr. rewrite Hnil in Hr. exact Hr.
Qed.

Lemma matching_rows_by_none (df : DataFrame) (query : string) :
  (forall r, In r (rows df) -> matches_by L query (term_of df r) = false) ->
  matching_rows_by L df query = [].
Proof.
  intros H. destruct (matching_rows_by L df query) as [| r rs] eqn:E; [reflexivity |].
  assert (Hin : In r (matching_rows_by L df query)) by (rewrite E; now left).
  apply matching_rows_by_in in Hin as [Hin Hm]. rewrite (H r Hin) in Hm. discriminate.
Qed.

(** On ASCII terms and an ASCII query every library that lowers ASCII text
    as Python does selects the rows of the modelled one. *)
Lemma matching_rows_by_ascii (df : DataFrame) (query : string) :
  lower_on_ascii L -> ascii_terms df = true -> is_ascii query = true ->
  matching_rows_by L df query = matching_rows df query.
Proof.
  intros HL Hterms Hq. unfold matching_rows_by, matching_rows.
  apply filter_ext_in. intros r Hr.
  unfold ascii_terms in Hterms. rewrite forallb_forall in Hterms.
  specialize (Hterms r Hr). unfold matches_by, matches.
  destruct (term_of df r) as [t | |]; try reflexivity.
  now rewrite (HL t Hterms), (HL query Hq).
Qed.

(** The first steps of the lookup on a table whose terms are strings. *)
Section Terms.

Variable df : DataFrame.
Hypothesis Hcolumn : has_column df "Search Term" = true.
Hypothesis Hstrings : forallb is_str (map (at_column df "Search Term") (rows df)) = true.
Variable query : string.
Hypothesis Hquery : truthy query = true.

Lemma visualize_by_steps :
  V2L.visualize L df query
  = match matching_rows_by L df query with
    | [] =>
        ([st_warning ("No data found for '" ++ query
                      ++ "'. Please select another term or ensure data is available.")],
         Ok tt)
    | _ =>
        fig_search <- call (px_line (filtered_by L df query) "Month" "Search Volume"
                              ("Monthly Search Volume for '" ++ query ++ "'")) ;;
        emit (st_plotly_chart fig_search) ;;;
        volumes <- call (getitem (filtered_by L df query) "Search Volume") ;;
        operands <- call (mean_operands volumes) ;;
        emit (st_write_volume_impact query operands)
    end.
Proof.
  unfold V2L.visualize. rewrite Hquery.
  rewrite (getitem_at _ _ Hcolumn), bind_call_Ok.
  rewrite (str_lower_strings_by _ Hstrings), bind_call_Ok. cbv zeta.
  unfold select. rewrite select_rows_matching_by.
  change (mkDF (columns df)
            (filter (fun r => matches_by L query (at_column df "Search Term" r)) (rows df)))
    with (filtered_by L df query).
  assert (Hempty : empty (filtered_by L df query)
                   = match matching_rows_by L df query with [] => true | _ => false end).
  { apply has_column_nonempty in Hcolumn. unfold empty, filtered_by; simpl.
    destruct (columns df); [congruence | reflexivity]. }
  rewrite Hempty. destruct (matching_rows_by L df query); reflexivity.
Qed.

End Terms.

Lemma visualize_by_found (df : DataFrame) (query : string) :
  is_dataset df = true -> truthy query = true -> matching_rows_by L df query <> [] ->
  V2L.visualize L df query
  = ([st_plotly_chart (mkFig (filtered_by L df query) "Month" "Search Volume"
                         ("Monthly Search Volume for '" ++ query ++ "'"));
      st_write_volume_impact query (volumes df (matching_rows_by L df query))], Ok tt).
Proof.
  intros H Ht Hne.
  destruct (is_dataset_columns df H) as (Hc & Hm & Hv).
  rewrite (visualize_by_steps df Hc (dataset_terms_are_strings df H) query Ht).
  destruct (matching_rows_by L df query) as [| r rs] eqn:E; [congruence |].
  rewrite <- E in *.
  assert (Hpx : forall title, px_line (filtered_by L df query) "Month" "Search Volume" title
                = Ok (mkFig (filtered_by L df query) "Month" "Search Volume" title)).
  { intros title. unfold px_line.
    replace (has_column (filtered_by L df query) "Month") with true by (symmetry; exact Hm).
    replace (has_column (filtered_by L df query) "Search Volume") with true
      by (symmetry; exact Hv).
    reflexivity. }
  rewrite Hpx, bind_call_Ok, bind_emit.
  replace (getitem (filtered_by L df query) "Search Volume")
    with (Ok (map (volume_of df) (matching_rows_by L df query)))
    by (symmetry; apply (getitem_at (filtered_by L df query) "Search Volume" Hv)).
  rewrite bind_call_Ok.
  assert (Hints : forallb is_int (map (volume_of df) (matching_rows_by L df query)) = true).
  { rewrite forallb_forall. intros c Hc'.
    apply in_map_iff in Hc' as [r' [<- Hr']].
    apply matching_rows_by_in in Hr' as [Hr' _].
    apply (is_dataset_rows df H r' Hr'). }
  rewrite (mean_operands_numbers _ Hints), bind_call_Ok; [reflexivity |].
  intros Hnil. apply map_eq_nil in Hnil. exact (Hne Hnil).
Qed.

Lemma visualize_by_not_found (df : DataFrame) (query : string) :
  is_dataset df = true -> truthy query = true -> matching_rows_by L df query = [] ->
  V2L.visualize L df query
  = ([st_warning ("No data found for '" ++ query
                  ++ "'. Please select another term or ensure data is available.")], Ok tt).
Proof.
  intros H Ht Hnil.
  destruct (is_dataset_columns df H) as (Hc & _).
  rewrite (visualize_by_steps df Hc (dataset_terms_are_strings df H) query Ht).
  now rewrite Hnil.
Qed.

Lemma visualize_by_returns (df : DataFrame) (query : string) :
  is_dataset df = true -> outcome (V2L.visualize L df query) = Ok tt.
Proof.
  intros H. destruct (truthy query) eqn:Ht.
  - destruct (matching_rows_by L df query) as [| r rs] eqn:E.
    + now rewrite (visualize_by_not_found df query H Ht E).
    + rewrite (visualize_by_found df query H Ht); [reflexivity |].
      rewrite E. discriminate.
  - unfold V2L.visualize. now rewrite Ht.
Qed.

End Library.

(** ** The local lookup, for every library *)

Lemma sample_terms_are_ascii :
  ascii_terms (frame_of V2.sample_data) = true
  /\ ascii_terms (frame_of V3.sample_data) = true.
Proof. split; reflexivity. Qed.

Lemma matches_own_term (t : string) : matches t (CStr t) = true.
Proof. apply String.eqb_refl. Qed.

Lemma ascii_term_of_row (df : DataFrame) (r : list cell) (t : string) :
  ascii_terms df = true -> In r (rows df) -> term_of df r = CStr t -> is_ascii t = true.
Proof.
  unfold ascii_terms. rewrite forallb_forall. intros H Hr Ht.
  specialize (H r Hr). now rewrite Ht in H.
Qed.

(** C4, as the code has it.  For a term that occurs in the Dataset up to
    case, the local lookup shows one chart and the impact line and
    returns.  The rows of the chart are exactly the records of the Dataset
    whose term equals the query once both are lowercased, in the order of
    the Dataset and without removing any: the lookup neither sorts the
    periods nor makes them distinct.  For the built-in sample Datasets the
    periods of every such series are in strictly ascending order.  This
    holds whatever [str.lower()] does to text outside ASCII. *)
Theorem local_lookup_series (L : library) (df : DataFrame) (query : string) :
  is_dataset df = true -> truthy query = true ->
  (exists r, In r (rows df) /\ matches_by L query (term_of df r) = true) ->
  (exists fig,
      V2L.visualize L df query
      = ([st_plotly_chart fig;
          st_write_volume_impact query (volumes df (rows (data fig)))], Ok tt)
      /\ rows (data fig) = matching_rows_by L df query
      /\ rows (data fig) <> [])
  /\ (forall r, In r (matching_rows_by L df query) <->
        In r (rows df) /\ exists t, term_of df r = CStr t /\ same_up_to_case L t query)
  /\ (lower_on_ascii L ->
      df = frame_of V2.sample_data \/ df = frame_of V3.sample_data ->
      ascending_periods df (matching_rows_by L df query)).
Proof.
  intros H Ht Hex. pose proof (matching_rows_by_nonempty L df query Hex) as Hne.
  split; [| split].
  - exists (mkFig (filtered_by L df query) "Month" "Search Volume"
              ("Monthly Search Volume for '" ++ query ++ "'")).
    rewrite (visualize_by_found L df query H Ht Hne).
    split; [reflexivity | split; [reflexivity | exact Hne]].
  - intros r. rewrite matching_rows_by_in, matches_by_spec. reflexivity.
  - intros HL Hsample. destruct Hex as (r & Hr & Hm).
    apply matches_by_spec in Hm as (t & Hterm & Hcase).
    assert (Hascii : ascii_terms df = true)
      by (destruct Hsample as [-> | ->]; reflexivity).
    pose proof (ascii_term_of_row df r t Hascii Hr Hterm) as Hat.
    rewrite <- (matching_rows_by_lower L df t query Hcase).
    rewrite (matching_rows_by_ascii L df t HL Hascii Hat).
    destruct Hsample as [-> | ->];
      [apply (V2_sample_ascending t r Hr) | apply (V3_sample_ascending t r Hr)];
      rewrite Hterm; apply matches_own_term.
Qed.

Lemma local_lookup_series_witness :
  exists fig,
    V2.visualize (frame_of V2.sample_data) "Best Laptops"
    = ([st_plotly_chart fig;
        st_write_volume_impact "Best Laptops" [120000; 130000; 125000]%Z], Ok tt)
    /\ rows (data fig)
       = [ [CStr "best laptops"; CStr "2025-01"; CInt 120000];
           [CStr "best laptops"; CStr "2025-02"; CInt 130000];
           [CStr "best laptops"; CStr "2025-03"; CInt 125000] ].
Proof.
  destruct (local_lookup_series modelled (frame_of V2.sample_data) "Best Laptops")
    as ((fig & Heq & Hrows & _) & _).
  - reflexivity.
  - reflexivity.
  - exists [CStr "best laptops"; CStr "2025-01"; CInt 120000]. split.
    + vm_compute. tauto.
    + reflexivity.
  - exists fig. rewrite <- visualize_modelled, Heq, Hrows. split; reflexivity.
Defined.

(** C4 as stated fails, whatever [str.lower()] does outside ASCII: on a
    Dataset whose rows are not in period order the series shown for a
    matching term is not in ascending period order. *)
Lemma local_lookup_does_not_sort :
  ~ (exists L : library,
        lower_on_ascii L
        /\ forall (df : DataFrame) (query : string),
             is_dataset df = true -> truthy query = true ->
             (exists r, In r (rows df) /\ matches_by L query (term_of df r) = true) ->
             exists fig,
               In (st_plotly_chart fig) (shown (V2L.visualize L df query))
               /\ (forall r, In r (rows (data fig)) ->
                     matches_by L query (term_of df r) = true)
               /\ ascending_periods df (rows (data fig))).
Proof.
  intros (L & HL & H).
  assert (Hrows : matching_rows_by L unsorted_dataset "a"
                  = [ [CStr "a"; CStr "2025-02"; CInt 1];
                      [CStr "a"; CStr "2025-01"; CInt 2] ]).
  { now rewrite (matching_rows_by_ascii L unsorted_dataset "a" HL eq_refl eq_refl). }
  destruct (H unsorted_dataset "a") as (fig & Hin & _ & Hsorted).
  - reflexivity.
  - reflexivity.
  - exists [CStr "a"; CStr "2025-02"; CInt 1]. split; [now left |].
    apply String.eqb_refl.
  - rewrite (visualize_by_found L unsorted_dataset "a" eq_refl eq_refl) in Hin
      by (rewrite Hrows; discriminate).
    simpl in Hin. destruct Hin as [Hin | [Hin | []]]; [| discriminate].
    injection Hin as <-.
    change (ascending_periods unsorted_dataset (matching_rows_by L unsorted_dataset "a"))
      in Hsorted.
    rewrite Hrows in Hsorted. vm_compute in Hsorted.
    inversion Hsorted as [| ? ? _ Hall]; subst.
    inversion Hall as [| ? ? Hlt _]; subst.
    vm_compute in Hlt. discriminate.
Qed.

(** C5.  For a term without a match up to case in the Dataset, the local
    lookup returns normally and shows neither an error nor a chart: no
    exception is raised on the way.  For a term that is not empty it shows
    the not-found warning and nothing else.  Whether a record matches is
    decided by the library's own [str.lower()]. *)
Theorem local_lookup_absent_term (L : library) (df : DataFrame) (query : string) :
  is_dataset df = true ->
  (forall r, In r (rows df) -> matches_by L query (term_of df r) = false) ->
  outcome (V2L.visualize L df query) = Ok tt
  /\ existsb is_error (shown (V2L.visualize L df query)) = false
  /\ existsb is_chart (shown (V2L.visualize L df query)) = false
  /\ (truthy query = true ->
      V2L.visualize L df query
      = ([st_warning ("No data found for '" ++ query
                      ++ "'. Please select another term or ensure data is available.")],
         Ok tt)).
Proof.
  intros H Hno. pose proof (matching_rows_by_none L df query Hno) as Hnil.
  destruct (truthy query) eqn:Ht.
  - rewrite (visualize_by_not_found L df query H Ht Hnil).
    repeat split; reflexivity.
  - unfold V2L.visualize. rewrite Ht.
    repeat split; try reflexivity; discriminate.
Qed.

Lemma local_lookup_absent_term_witness :
  V2.visualize (frame_of V2.sample_data) "standing desks"
  = ([st_warning "No data found for 'standing desks'. Please select another term or ensure data is available."],
     Ok tt).
Proof.
  rewrite <- visualize_modelled.
  apply (local_lookup_absent_term modelled (frame_of V2.sample_data) "standing desks").
  - reflexivity.
  - intros r Hr. vm_compute in Hr.
    repeat (destruct Hr as [<- | Hr]; [reflexivity |]). contradiction.
  - reflexivity.
Defined.



Lemma lower_on_ascii_modelled : lower_on_ascii modelled.
Proof. intros s _. reflexivity. Qed.


(** ** Version 3 as it is shipped *)

(** C1 at a concrete pass of version 3.  The service cannot be reached,
    the sample Dataset holds records for "best laptops", and "best
    laptops" is both typed and selected in the local select box.  The
    claim says that the local series is shown.  The run ends with
    [SyntaxError] at line 147 before the first line is run, so neither
    lookup takes place. *)
Theorem v3_fallback_pass_does_not_start :
  remote_fails unreachable false "best laptops"
  /\ (exists r, In r (rows (frame_of V3.sample_data))
                /\ matches "best laptops" (term_of (frame_of V3.sample_data) r) = true)
  /\ V3.run (V3.mkInputs unreachable quiet "best laptops" "best laptops" None)
     = V3.SyntaxError_at 147.
Proof.
  split; [now left | split; [| reflexivity]].
  exists [CStr "best laptops"; CStr "2025-01"; CInt 120000].
  split; [now left | reflexivity].
Qed.

(** C3 at a concrete pass of version 3.  The client is built, and the
    service answers the query for "best laptops" with a rate-limit
    error, an [Exception].  The claim says that the failure is caught
    and reported.  The run ends with [SyntaxError] at line 147 before
    the [try] of line 82 is entered; this is so for every input, so no
    pass of version 3 handles a failure of the service. *)
Theorem v3_remote_failure_pass_does_not_start :
  (exists e, is_Exception e = true /\ remote_raises rate_limited "best laptops" e)
  /\ V3.run (V3.mkInputs rate_limited quiet "best laptops" "best laptops" None)
     = V3.SyntaxError_at 147
  /\ (forall i pass, V3.run i <> V3.Ran pass).
Proof.
  split; [| split; [reflexivity | discriminate]].
  exists (mk_exn ResponseError
            "The request failed: Google returned a response with code 429").
  split; [reflexivity | right; split; reflexivity].
Qed.

(** C6 at a concrete pass of version 3.  The service answers the query
    for "zzyzx road" with a frame without rows and columns.  The claim
    says that this is reported as not found, apart from the report of a
    failure.  The run ends with [SyntaxError] at line 147, as it does
    when the service cannot be reached: the two outcomes are the same. *)
Theorem v3_empty_answer_pass_does_not_start :
  V3.build_payload no_data "zzyzx road" = Ok tt
  /\ (exists trends_data,
         V3.interest_over_time no_data "zzyzx road" = Ok trends_data
         /\ V3.t_empty trends_data = true)
  /\ V3.run (V3.mkInputs no_data quiet "zzyzx road" "best laptops" None)
     = V3.SyntaxError_at 147
  /\ V3.run (V3.mkInputs no_data quiet "zzyzx road" "best laptops" None)
     = V3.run (V3.mkInputs unreachable quiet "zzyzx road" "best laptops" None).
Proof.
  split; [reflexivity | split; [| split; reflexivity]].
  exists (V3.mkTrends [] [] []). split; reflexivity.
Qed.

(** ** The pass of version 2, for every library *)

Section LibraryPass.

Variable L : library.

Lemma load_dataset_by_cases (interference : file -> file) :
  V2L.load_dataset L interference
  = match V2L.read_csv_file L
            (interference (Some (to_csv_of L (frame_of V2.sample_data)))) with
    | Ok df => ([], Ok df)
    | Raise e =>
        if is_FileNotFoundError e
        then ([st_error "Search volume dataset not found. Using sample data."],
              Ok (frame_of V2.sample_data))
        else ([], Raise e)
    end.
Proof.
  unfold V2L.load_dataset. rewrite V2_sample_frame, bind_call_Ok.
  destruct (V2L.read_csv_file _ _) as [df | e]; [reflexivity |].
  simpl. destruct (is_FileNotFoundError e); reflexivity.
Qed.

Lemma load_dataset_by_quiet :
  reads_back L (frame_of V2.sample_data) ->
  V2L.load_dataset L quiet = ([], Ok (frame_of V2.sample_data)).
Proof.
  intros Hback. rewrite load_dataset_by_cases. unfold quiet, V2L.read_csv_file.
  now rewrite Hback.
Qed.

Lemma resolve_by_from_sample (selected_term custom_term : string) :
  reads_back L (frame_of V2.sample_data) ->
  V2L.resolve L quiet selected_term custom_term
  = (shown (V2L.visualize L (frame_of V2.sample_data)
              (V2.term_to_use selected_term custom_term)),
     Ok sample_globals).
Proof.
  intros Hback. unfold V2L.resolve. rewrite (load_dataset_by_quiet Hback).
  change (@pair (list event) (result DataFrame) [] (Ok (frame_of V2.sample_data)))
    with (ret (frame_of V2.sample_data)).
  rewrite bind_ret.
  change (getitem (frame_of V2.sample_data) "Search Term")
    with (Ok (map (at_column (frame_of V2.sample_data) "Search Term")
                  (rows (frame_of V2.sample_data)))).
  rewrite bind_call_Ok. cbv zeta.
  change (V2.df_search (V2.mkGlobals (frame_of V2.sample_data) _))
    with (frame_of V2.sample_data).
  pose proof (visualize_by_returns L (frame_of V2.sample_data)
                (V2.term_to_use selected_term custom_term) eq_refl) as Hret.
  destruct (V2L.visualize _ _ _) as [evs r]. simpl in Hret. subst r.
  unfold bind, ret, shown, fst. rewrite app_nil_r. reflexivity.
Qed.

Lemma upload_by_cases (g : V2.globals) (uploaded_file : option string) :
  V2L.upload L g uploaded_file
  = match uploaded_file with
    | None => ([], Ok g)
    | Some text =>
        match read_csv_of L text with
        | Raise e => ([], Raise e)
        | Ok df_uploaded => V2.accept_upload g df_uploaded
        end
    end.
Proof.
  destruct uploaded_file as [text |]; [| reflexivity].
  unfold V2L.upload. destruct (read_csv_of L text); [now rewrite bind_call_Ok | reflexivity].
Qed.

Lemma render_by_quiet (selected_term custom_term : string) (uploaded_file : option string) :
  reads_back L (frame_of V2.sample_data) ->
  V2L.render L (V2.mkInputs quiet selected_term custom_term uploaded_file)
  = (shown (V2L.visualize L (frame_of V2.sample_data)
              (V2.term_to_use selected_term custom_term))
     ++ shown (V2L.upload L sample_globals uploaded_file),
     outcome (V2L.upload L sample_globals uploaded_file)).
Proof.
  intros Hback. unfold V2L.render. simpl V2.interference. simpl V2.selected_term.
  simpl V2.custom_term. simpl V2.uploaded_file.
  rewrite (resolve_by_from_sample _ _ Hback).
  exact (bind_Ok_pair _ sample_globals (fun g => V2L.upload L g uploaded_file)).
Qed.

(** A chart that the lookup shows is the chart of the rows that equal the
    query up to case, and there is at least one such row. *)
Lemma visualize_by_chart (df : DataFrame) (query : string) (fig : figure) :
  is_dataset df = true ->
  In (st_plotly_chart fig) (shown (V2L.visualize L df query)) ->
  truthy query = true
  /\ matching_rows_by L df query <> []
  /\ fig = mkFig (filtered_by L df query) "Month" "Search Volume"
             ("Monthly Search Volume for '" ++ query ++ "'").
Proof.
  intros H Hin. destruct (truthy query) eqn:Ht.
  - destruct (matching_rows_by L df query) as [| r rs] eqn:E.
    + rewrite (visualize_by_not_found L df query H Ht E) in Hin.
      simpl in Hin. destruct Hin as [Hin | []]. discriminate.
    + assert (Hne : matching_rows_by L df query <> []) by (rewrite E; discriminate).
      rewrite (visualize_by_found L df query H Ht Hne) in Hin.
      simpl in Hin. destruct Hin as [Hin | [Hin | []]]; [| discriminate].
      injection Hin as <-. rewrite <- E. repeat split. exact Hne.
  - unfold V2L.visualize in Hin. rewrite Ht in Hin.
    simpl in Hin. destruct Hin as [Hin | []]. discriminate.
Qed.

End LibraryPass.

Lemma reads_back_modelled : reads_back modelled (frame_of V2.sample_data).
Proof. exact V2_sample_read_back. Qed.

(** ** Further properties of the pass of version 2 *)

(** X2.  Where reading back what was written for the sample data gives
    the sample data, a pass with an untouched persistence file looks the
    term up in the sample Dataset whatever file is uploaded: it shows the
    display of the lookup, then that of the upload block.  The pass ends
    with an exception exactly when [pd.read_csv] raises on the uploaded
    file, with that exception; the upload block has no handler and shows
    nothing then.  Which files [pd.read_csv] raises on is left to the
    library. *)
Theorem untouched_pass_raises_only_on_unreadable_upload (L : library)
    (selected_term custom_term : string) (uploaded_file : option string) (e : exn) :
  reads_back L (frame_of V2.sample_data) ->
  (outcome (V2L.render L (V2.mkInputs quiet selected_term custom_term uploaded_file))
   = Raise e
   <-> exists text, uploaded_file = Some text /\ read_csv_of L text = Raise e)
  /\ shown (V2L.render L (V2.mkInputs quiet selected_term custom_term uploaded_file))
     = shown (V2L.visualize L (frame_of V2.sample_data)
                (V2.term_to_use selected_term custom_term))
       ++ shown (V2L.upload L sample_globals uploaded_file)
  /\ (outcome (V2L.render L (V2.mkInputs quiet selected_term custom_term uploaded_file))
      = Raise e ->
      shown (V2L.upload L sample_globals uploaded_file) = []).
Proof.
  intros Hback. rewrite (render_by_quiet L _ _ _ Hback).
  unfold outcome at 1 3, shown at 1. simpl fst. simpl snd.
  split; [| split; [reflexivity |]]; rewrite upload_by_cases.
  - destruct uploaded_file as [text |].
    + destruct (read_csv_of L text) as [df | e'] eqn:E.
      * destruct (V2_accept_upload_returns sample_globals df) as [g' Hg'].
        rewrite Hg'. split; [discriminate |].
        intros (text' & [= <-] & H). congruence.
      * simpl. split.
        -- intros [= <-]. now exists text.
        -- intros (text' & [= <-] & H). congruence.
    + simpl. split; [discriminate |]. intros (text & H & _). discriminate.
  - destruct uploaded_file as [text |]; [| reflexivity].
    destruct (read_csv_of L text) as [df | e'] eqn:E; [| reflexivity].
    destruct (V2_accept_upload_returns sample_globals df) as [g' Hg'].
    rewrite Hg'. discriminate.
Qed.

Lemma untouched_pass_raises_only_on_unreadable_upload_witness :
  outcome (V2.render (V2.mkInputs quiet "" "best laptops" (Some EmptyString)))
  = Raise (mk_exn EmptyDataError "No columns to parse from file").
Proof.
  rewrite <- render_modelled.
  apply (untouched_pass_raises_only_on_unreadable_upload modelled "" "best laptops"
           (Some EmptyString)).
  - exact reads_back_modelled.
  - exists EmptyString. split; reflexivity.
Defined.

(** X4.  When the table read back from the persistence file has no
    'Search Term' column, the pass ends with [KeyError] where the terms
    of the select box are collected, line 64, before the lookup and the
    upload block: nothing has been shown by then, and the text of the
    exception is the label in quotes. *)
Theorem missing_term_column_raises_KeyError (L : library)
    (interference : file -> file) (df : DataFrame) :
  V2L.read_csv_file L (interference (Some (to_csv_of L (frame_of V2.sample_data)))) = Ok df ->
  has_column df "Search Term" = false ->
  forall selected_term custom_term uploaded_file,
    V2L.resolve L interference selected_term custom_term
    = ([], Raise (mk_exn KeyError "'Search Term'"))
    /\ V2L.render L (V2.mkInputs interference selected_term custom_term uploaded_file)
       = ([], Raise (mk_exn KeyError "'Search Term'")).
Proof.
  intros Hread Hmiss selected_term custom_term uploaded_file.
  assert (Hres : V2L.resolve L interference selected_term custom_term
                 = ([], Raise (mk_exn KeyError "'Search Term'"))).
  { unfold V2L.resolve. rewrite load_dataset_by_cases, Hread, bind_Ok_pair.
    rewrite (getitem_missing df _ Hmiss). reflexivity. }
  split; [exact Hres |].
  unfold V2L.render. simpl V2.interference. simpl V2.selected_term.
  simpl V2.custom_term. rewrite Hres. reflexivity.
Qed.

Lemma missing_term_column_raises_KeyError_witness :
  V2.render (V2.mkInputs replaced_by_other_table "" "foo" None)
  = ([], Raise (mk_exn KeyError "'Search Term'")).
Proof.
  rewrite <- render_modelled.
  apply (missing_term_column_raises_KeyError modelled replaced_by_other_table
           (mkDF ["Keyword"; "Month"; "Search Volume"]
                 [[CStr "foo"; CStr "2025-01"; CInt 5]])
           eq_refl eq_refl "" "foo" None).
Defined.

(** X5.  The lookup needs the 'Month' and 'Search Volume' columns only
    when it has rows to draw.  On a table with string terms that lacks
    one of the two, a term without a match up to case still gets the
    not-found warning, while a term with a match ends the lookup with the
    [ValueError] of [px.line], unhandled, and nothing shown. *)
Theorem lookup_needs_axes_only_for_a_match (L : library) (df : DataFrame) (query : string) :
  has_column df "Search Term" = true ->
  forallb is_str (map (at_column df "Search Term") (rows df)) = true ->
  has_column df "Month" && has_column df "Search Volume" = false ->
  truthy query = true ->
  (matching_rows_by L df query = [] ->
   V2L.visualize L df query
   = ([st_warning ("No data found for '" ++ query
                   ++ "'. Please select another term or ensure data is available.")],
      Ok tt))
  /\ (matching_rows_by L df query <> [] ->
      exists message,
        V2L.visualize L df query = ([], Raise (mk_exn ValueError message))).
Proof.
  intros Hc Hs Ha Hq. rewrite (visualize_by_steps L df Hc Hs query Hq). split.
  - intros ->. reflexivity.
  - intros Hne. destruct (matching_rows_by L df query) as [| r rs] eqn:E; [congruence |].
    unfold px_line.
    change (has_column (filtered_by L df query) "Month") with (has_column df "Month").
    change (has_column (filtered_by L df query) "Search Volume")
      with (has_column df "Search Volume").
    destruct (has_column df "Month"); simpl in Ha.
    + rewrite Ha. eexists. reflexivity.
    + eexists. reflexivity.
Qed.

Lemma lookup_needs_axes_only_for_a_match_witness :
  V2.visualize terms_only "baz"
  = ([st_warning "No data found for 'baz'. Please select another term or ensure data is available."],
     Ok tt)
  /\ exists message,
       V2.visualize terms_only "FOO" = ([], Raise (mk_exn ValueError message)).
Proof.
  rewrite <- !visualize_modelled. split.
  - apply (lookup_needs_axes_only_for_a_match modelled terms_only "baz"); reflexivity.
  - apply (lookup_needs_axes_only_for_a_match modelled terms_only "FOO"); try reflexivity.
    discriminate.
Defined.

(** X7.  The lookup depends on the spelling of the term only in the
    texts it shows.  Two non-empty terms that are equal once lowercased
    select the same rows; on a match their charts are drawn from the same
    frame and their impact lines computed from the same values, and
    without a match both get the warning. *)
Theorem lookup_is_case_insensitive (L : library) (df : DataFrame) (query query' : string) :
  is_dataset df = true -> same_up_to_case L query query' ->
  truthy query = true -> truthy query' = true ->
  (matching_rows_by L df query <> [] ->
   exists frame operands,
     rows frame = filter (fun r => matches_by L query (term_of df r)) (rows df)
     /\ V2L.visualize L df query
        = ([st_plotly_chart (mkFig frame "Month" "Search Volume"
                               ("Monthly Search Volume for '" ++ query ++ "'"));
            st_write_volume_impact query operands], Ok tt)
     /\ V2L.visualize L df query'
        = ([st_plotly_chart (mkFig frame "Month" "Search Volume"
                               ("Monthly Search Volume for '" ++ query' ++ "'"));
            st_write_volume_impact query' operands], Ok tt))
  /\ (matching_rows_by L df query = [] ->
      V2L.visualize L df query
      = ([st_warning ("No data found for '" ++ query
                      ++ "'. Please select another term or ensure data is available.")],
         Ok tt)
      /\ V2L.visualize L df query'
         = ([st_warning ("No data found for '" ++ query'
                         ++ "'. Please select another term or ensure data is available.")],
            Ok tt)).
Proof.
  intros H Hcase Ht Ht'.
  assert (Hrows : matching_rows_by L df query' = matching_rows_by L df query).
  { apply matching_rows_by_lower. now symmetry. }
  split.
  - intros Hne. exists (filtered_by L df query), (volumes df (matching_rows_by L df query)).
    rewrite (visualize_by_found L df query H Ht Hne).
    rewrite (visualize_by_found L df query' H Ht'); [| now rewrite Hrows].
    unfold filtered_by. rewrite Hrows. repeat split.
  - intros Hnil.
    rewrite (visualize_by_not_found L df query H Ht Hnil).
    rewrite (visualize_by_not_found L df query' H Ht'); [| now rewrite Hrows].
    split; reflexivity.
Qed.

Lemma lookup_is_case_insensitive_witness :
  exists frame operands,
    V2.visualize (frame_of V2.sample_data) "CHEAP FLIGHTS"
    = ([st_plotly_chart (mkFig frame "Month" "Search Volume"
                           "Monthly Search Volume for 'CHEAP FLIGHTS'");
        st_write_volume_impact "CHEAP FLIGHTS" operands], Ok tt)
    /\ V2.visualize (frame_of V2.sample_data) "Cheap Flights"
       = ([st_plotly_chart (mkFig frame "Month" "Search Volume"
                              "Monthly Search Volume for 'Cheap Flights'");
           st_write_volume_impact "Cheap Flights" operands], Ok tt).
Proof.
  destruct (lookup_is_case_insensitive modelled (frame_of V2.sample_data)
              "CHEAP FLIGHTS" "Cheap Flights") as [Hfound _].
  - reflexivity.
  - reflexivity.
  - reflexivity.
  - reflexivity.
  - destruct Hfound as (frame & operands & _ & H1 & H2); [vm_compute; discriminate |].
    exists frame, operands. rewrite <- !visualize_modelled. split; assumption.
Defined.

(** X8.  The charts of the lookup partition a Dataset.  Every record with
    a non-empty term is in the chart that the lookup shows for its own
    term.  A record that is in the charts shown for two terms makes the
    two terms equal up to case and the rows of the two charts the same,
    and it carries a term equal to both up to case: no record is charted
    under a term it does not carry. *)
Theorem series_partition_the_dataset (L : library) (df : DataFrame) :
  is_dataset df = true ->
  (forall r, In r (rows df) ->
     exists t, term_of df r = CStr t
               /\ (truthy t = true ->
                   exists fig, In (st_plotly_chart fig) (shown (V2L.visualize L df t))
                               /\ In r (rows (data fig))))
  /\ (forall q q' fig fig' r,
        In (st_plotly_chart fig) (shown (V2L.visualize L df q)) ->
        In (st_plotly_chart fig') (shown (V2L.visualize L df q')) ->
        In r (rows (data fig)) -> In r (rows (data fig')) ->
        same_up_to_case L q q'
        /\ rows (data fig) = rows (data fig')
        /\ exists t, term_of df r = CStr t /\ same_up_to_case L t q).
Proof.
  intros H. split.
  - intros r Hr.
    destruct (is_dataset_rows df H r Hr) as [Hs _].
    destruct (term_of df r) as [t | |] eqn:E; try discriminate.
    exists t. split; [reflexivity |]. intros Ht.
    assert (Hin : In r (matching_rows_by L df t)).
    { apply matching_rows_by_in. split; [exact Hr |].
      apply matches_by_spec. exists t. split; [exact E | reflexivity]. }
    exists (mkFig (filtered_by L df t) "Month" "Search Volume"
              ("Monthly Search Volume for '" ++ t ++ "'")).
    rewrite (visualize_by_found L df t H Ht); [| intros Hnil; now rewrite Hnil in Hin].
    split; [now left | exact Hin].
  - intros q q' fig fig' r Hfig Hfig' Hr Hr'.
    apply (visualize_by_chart L df q fig H) in Hfig as (_ & _ & ->).
    apply (visualize_by_chart L df q' fig' H) in Hfig' as (_ & _ & ->).
    change (In r (matching_rows_by L df q)) in Hr.
    change (In r (matching_rows_by L df q')) in Hr'.
    apply matching_rows_by_in in Hr as [_ Hr], Hr' as [_ Hr'].
    apply matches_by_spec in Hr as (t & Ht & Hl), Hr' as (t' & Ht' & Hl').
    assert (Hqq : same_up_to_case L q q') by (unfold same_up_to_case in *; congruence).
    split; [exact Hqq | split].
    + exact (matching_rows_by_lower L df q q' Hqq).
    + now exists t.
Qed.

Lemma series_partition_the_dataset_witness :
  exists t,
    term_of mixed_case_dataset [CStr "Best Laptops"; CStr "2025-01"; CInt 10] = CStr t
    /\ (truthy t = true ->
        exists fig,
          In (st_plotly_chart fig) (shown (V2L.visualize modelled mixed_case_dataset t))
          /\ In [CStr "Best Laptops"; CStr "2025-01"; CInt 10] (rows (data fig))).
Proof.
  apply (proj1 (series_partition_the_dataset modelled mixed_case_dataset eq_refl)).
  simpl. tauto.
Defined.

(** X10.  A term taken from the select box has data.  For a Dataset,
    every non-empty term of the list of distinct terms of line 64 leads
    the lookup to a chart with at least one row and to the impact line, so
    the not-found warning cannot be reached from the select box. *)
Theorem select_box_terms_have_data (L : library) (df : DataFrame) (t : string) :
  is_dataset df = true ->
  In (CStr t) (unique (map (at_column df "Search Term") (rows df))) ->
  truthy t = true ->
  exists fig,
    V2L.visualize L df (V2.term_to_use t "")
    = ([st_plotly_chart fig;
        st_write_volume_impact t (volumes df (rows (data fig)))], Ok tt)
    /\ rows (data fig) = filter (fun r => matches_by L t (term_of df r)) (rows df)
    /\ rows (data fig) <> [].
Proof.
  intros H Hin Ht.
  assert (Hne : matching_rows_by L df t <> []).
  { apply unique_In, in_map_iff in Hin as (r & Hr & Hin).
    apply matching_rows_by_nonempty. exists r. split; [exact Hin |].
    apply matches_by_spec. exists t. split; [exact Hr | reflexivity]. }
  exists (mkFig (filtered_by L df t) "Month" "Search Volume"
            ("Monthly Search Volume for '" ++ t ++ "'")).
  unfold V2.term_to_use. simpl truthy. cbv iota.
  rewrite (visualize_by_found L df t H Ht Hne).
  split; [reflexivity | split; [reflexivity | exact Hne]].
Qed.

Lemma select_box_terms_have_data_witness :
  exists fig,
    V2.visualize (frame_of V2.sample_data) (V2.term_to_use "python tutorial" "")
    = ([st_plotly_chart fig;
        st_write_volume_impact "python tutorial"
          (volumes (frame_of V2.sample_data) (rows (data fig)))], Ok tt)
    /\ rows (data fig) <> [].
Proof.
  destruct (select_box_terms_have_data modelled (frame_of V2.sample_data)
              "python tutorial") as (fig & Heq & _ & Hne).
  - reflexivity.
  - vm_compute. tauto.
  - reflexivity.
  - exists fig. rewrite <- visualize_modelled. split; assumption.
Defined.
